(** * The upgrade keeper of x/upgrade (keeper.go)

    A shallow embedding of [ScheduleUpgrade], [ClearUpgradePlan],
    [GetUpgradePlan], [setDone], [SetUpgradeHandler] and [BeginBlocker],
    and the properties of the scheduling and trigger engine.

    The keeper is a pointer receiver whose fields are mutated in place, it
    reads and writes a key-value store reached through the context, it calls
    registered handlers and it panics.  All of this is threaded through one
    small monad, [Exec]: a state ([Machine]) together with a result that is
    either a value or a panic. *)

From Stdlib Require Import ZArith Lia List.
From Stdlib Require Import Strings.String Strings.Ascii Strings.Byte.
From stdpp Require Import base decidable countable gmap strings list.

Local Open Scope Z_scope.

(** ** Bytes *)

Abbreviation bytes := (list byte).

#[global] Instance byte_eq_decision : EqDecision byte := Byte.byte_eq_dec.

#[global] Instance byte_countable : Countable byte :=
  inj_countable Byte.to_N Byte.of_N Byte.of_to_N.

(** ** Integer conversions of Go *)

Definition int64_range (z : Z) : Prop := - 2 ^ 63 <= z < 2 ^ 63.

(** [uint64(x)] of an [int64]: the same 64 bits read as unsigned. *)
Definition uint64 (z : Z) : Z := z mod 2 ^ 64.

(** [int64(x)] of a [uint64]: the same 64 bits read as signed. *)
Definition int64 (z : Z) : Z := if z <? 2 ^ 63 then z else z - 2 ^ 64.

(** ** Package time *)

Module time.

(** [time.Time] is an instant on a linear timeline.  It is embedded as the
    signed number of nanoseconds since the zero instant (January 1, year 1,
    00:00:00 UTC), so that [IsZero] is a comparison with [0]. *)
Definition Time : Type := Z.

Definition IsZero (t : Time) : bool := t =? 0.

(** [t.After(u)]: [t] is strictly after [u]. *)
Definition After (t u : Time) : bool := u <? t.

(** [t.Before(u)]: [t] is strictly before [u]. *)
Definition Before (t u : Time) : bool := t <? u.

End time.

(** ** Package encoding/binary *)

Module binary.

(** [byte(v)]: the low eight bits. *)
Definition byte_of (v : Z) : byte :=
  default x00 (Byte.of_N (Z.to_N (Z.land v 255))).

Definition of_byte (b : byte) : Z := Z.of_N (Byte.to_N b).

(** [binary.BigEndian.PutUint64(bz, v)] on a fresh buffer of 8 bytes. *)
Definition PutUint64 (v : Z) : bytes :=
  [ byte_of (Z.shiftr v 56); byte_of (Z.shiftr v 48);
    byte_of (Z.shiftr v 40); byte_of (Z.shiftr v 32);
    byte_of (Z.shiftr v 24); byte_of (Z.shiftr v 16);
    byte_of (Z.shiftr v 8);  byte_of v ].

(** [binary.BigEndian.Uint64(bz)]; it needs 8 bytes. *)
Definition Uint64 (b : bytes) : option Z :=
  match b with
  | b0 :: b1 :: b2 :: b3 :: b4 :: b5 :: b6 :: b7 :: _ =>
      Some (Z.lor (of_byte b7)
           (Z.lor (Z.shiftl (of_byte b6) 8)
           (Z.lor (Z.shiftl (of_byte b5) 16)
           (Z.lor (Z.shiftl (of_byte b4) 24)
           (Z.lor (Z.shiftl (of_byte b3) 32)
           (Z.lor (Z.shiftl (of_byte b2) 40)
           (Z.lor (Z.shiftl (of_byte b1) 48)
                  (Z.shiftl (of_byte b0) 56))))))))
  | _ => None
  end.

End binary.

(** ** Package abci: the block header *)

Module abci.

(** Modelled from the spec: the block context contract, "current block
    height (integer), current block time (timestamp)".  The header type is
    declared outside the keeper's file; the keeper reads these two
    fields. *)
Record Header : Type := { Height : Z; Time : time.Time }.

End abci.

(** ** Package sdk: errors and the context *)

Module sdk.

Inductive CodeType : Type := CodeOK | CodeUnknownRequest.

(** Modelled from the spec: the errors of [ScheduleUpgrade] are "returned
    synchronously to the caller".  The error type is declared outside the
    keeper's file; the keeper builds every error with [ErrUnknownRequest]
    and a message, and the tests read the code back. *)
Record Error : Type := { Code : CodeType; Msg : string }.

Definition ErrUnknownRequest (msg : string) : Error :=
  {| Code := CodeUnknownRequest; Msg := msg |}.

(** Modelled from the spec: the block context.  The store it gives access
    to is threaded separately, in [Machine]. *)
Record Context : Type := { BlockHeader : abci.Header }.

Definition BlockHeight (ctx : Context) : Z := abci.Height (BlockHeader ctx).

End sdk.

(** ** The plan *)

(** Modelled from the spec: "the value object describing a requested upgrade
    (name, optional target height, optional target time, free-text info)".
    The struct is declared outside the keeper's file; the keeper reads the
    fields [Name], [Time], [Height] and [Info].  [Height] is an [int64] and
    an unset field holds Go's zero value. *)
Record Plan : Type := {
  Name : string;
  Time : time.Time;
  Height : Z;
  Info : string
}.

(** The zero value of [Plan], what [var plan Plan] holds. *)
Definition zeroPlan : Plan :=
  {| Name := EmptyString; Time := 0; Height := 0; Info := EmptyString |}.

(** Modelled from the spec: "the serialization/encoding of the Plan record"
    is an external collaborator.  [MarshalBinaryBare] is total on plans,
    [UnmarshalBinaryBare] may fail, and then the [Must] variant panics. *)
Record Codec : Type := {
  MarshalBinaryBare : Plan -> bytes;
  UnmarshalBinaryBare : bytes -> option Plan
}.

(** The round trip of the spec: "serializing and deserializing a Plan
    reproduces an identical Plan". *)
Definition codec_roundtrip (cdc : Codec) : Prop :=
  forall p, UnmarshalBinaryBare cdc (MarshalBinaryBare cdc p) = Some p.

(** ** Store keys *)

Definition PlanByte : byte := x00.
Definition DoneByte : byte := x01.

Definition PlanKey : bytes := [PlanByte].

Definition DoneHeightKey (name : string) : bytes :=
  [DoneByte] ++ list_byte_of_string name.

(** [ValidateBasic] does basic validation of a plan. *)
Definition ValidateBasic (plan : Plan) : option sdk.Error :=
  if (String.length (Name plan) =? 0)%nat
  then Some (sdk.ErrUnknownRequest "Name cannot be empty")
  else None.

(** The four errors of the spec's taxonomy, as the keeper builds them. *)
Definition InvalidPlan : sdk.Error :=
  sdk.ErrUnknownRequest "Name cannot be empty".
Definition ScheduleInPast : sdk.Error :=
  sdk.ErrUnknownRequest "Upgrade cannot be scheduled in the past".
Definition InvalidSchedule : sdk.Error :=
  sdk.ErrUnknownRequest "Only one of Time or Height should be specified".
Definition AlreadyCompleted (name : string) : sdk.Error :=
  sdk.ErrUnknownRequest
    (String.append "Upgrade with name "
       (String.append name " has already been completed")).

(** ** The machine: keeper, stores, and the record of handler calls *)

Section Keeper.

(** Everything a handler can reach that is not the upgrade module's own
    store: the other modules' stores and whatever its closure captures. *)
Context {A : Type}.

(** Modelled from the spec: the store is "a key-value capability providing
    get, set, delete, has over byte keys, scoped to a private namespace".
    [upgradeStore] is the store that [ctx.KVStore(keeper.storeKey)]
    returns. *)
Record MultiStore : Type := {
  upgradeStore : gmap bytes bytes;
  others : A
}.

(** Modelled from the spec: a handler is "a callback with access to the
    current block context and the triggered Plan".  The type is declared
    outside the keeper's file as [func(ctx sdk.Context, plan Plan)]; its
    effect is on what the context reaches.  A handler is taken to return:
    a panic inside a handler is not modelled. *)
Definition Handler : Type := sdk.Context -> Plan -> MultiStore -> MultiStore.

(** The keeper.  Its [storeKey] field is the capability that selects
    [upgradeStore] among the stores; it never changes and is left
    implicit. *)
Record keeper : Type := {
  cdc : Codec;
  upgradeHandlers : gmap string Handler;
  haveCache : bool
}.

(** One execution of [handler(ctx, plan)] in [BeginBlocker]. *)
Record Call : Type := {
  call_name : string;
  call_ctx : sdk.Context;
  call_plan : Plan
}.

(** The keeper, the stores behind the context, and the handler calls made
    so far, oldest first. *)
Record Machine : Type := {
  kp : keeper;
  cms : MultiStore;
  invoked : list Call
}.

(** *** The execution monad *)

Inductive Res (X : Type) : Type :=
| Val (x : X)
| Panic (msg : string).
Arguments Val {X} x.
Arguments Panic {X} msg.

Definition Exec (X : Type) : Type := Machine -> Res X * Machine.

Definition ret {X} (x : X) : Exec X := fun m => (Val x, m).

Definition bind {X Y} (c : Exec X) (k : X -> Exec Y) : Exec Y :=
  fun m =>
    match c m with
    | (Val x, m') => k x m'
    | (Panic msg, m') => (Panic msg, m')
    end.

Definition panic {X} (msg : string) : Exec X := fun m => (Panic msg, m).

Definition gets {X} (f : Machine -> X) : Exec X := fun m => (Val (f m), m).

Definition modify (f : Machine -> Machine) : Exec unit :=
  fun m => (Val tt, f m).

End Keeper.

Arguments MultiStore A : clear implicits.
Arguments Handler A : clear implicits.
Arguments keeper A : clear implicits.
Arguments Machine A : clear implicits.
Arguments Exec A X : clear implicits.
Arguments Val {X} x.
Arguments Panic {X} msg.

Declare Scope exec_scope.
Delimit Scope exec_scope with exec.
Notation "'let*' x ':=' c 'in' k" := (bind c (fun x => k))
  (at level 10, x name, c at level 100, k at level 200) : exec_scope.
Notation "c ;;; k" := (bind c (fun _ => k))
  (at level 200, k at level 200) : exec_scope.

Section Operations.

Context {A : Type}.
Local Open Scope exec_scope.

(** *** Store access through [ctx.KVStore(keeper.storeKey)] *)

Definition with_store (f : gmap bytes bytes -> gmap bytes bytes)
    (m : Machine A) : Machine A :=
  {| kp := kp m;
     cms := {| upgradeStore := f (upgradeStore (cms m));
               others := others (cms m) |};
     invoked := invoked m |}.

Definition store_Get (key : bytes) : Exec A (option bytes) :=
  gets (fun m => upgradeStore (cms m) !! key).

Definition store_Has (key : bytes) : Exec A bool :=
  gets (fun m => bool_decide (is_Some (upgradeStore (cms m) !! key))).

Definition store_Set (key value : bytes) : Exec A unit :=
  modify (with_store (insert key value)).

Definition store_Delete (key : bytes) : Exec A unit :=
  modify (with_store (delete key)).

(** *** Keeper fields *)

Definition with_haveCache (b : bool) (m : Machine A) : Machine A :=
  {| kp := {| cdc := cdc (kp m);
              upgradeHandlers := upgradeHandlers (kp m);
              haveCache := b |};
     cms := cms m;
     invoked := invoked m |}.

(** [keeper.haveCache = b] *)
Definition set_haveCache (b : bool) : Exec A unit :=
  modify (with_haveCache b).

(** [handler, ok := keeper.upgradeHandlers[name]] *)
Definition lookup_handler (name : string) : Exec A (option (Handler A)) :=
  gets (fun m => upgradeHandlers (kp m) !! name).

(** [handler(ctx, plan)]: the handler acts on what the context reaches,
    and the call is recorded. *)
Definition with_call (name : string) (handler : Handler A)
    (ctx : sdk.Context) (plan : Plan) (m : Machine A) : Machine A :=
  {| kp := kp m;
     cms := handler ctx plan (cms m);
     invoked := invoked m ++
       [{| call_name := name; call_ctx := ctx; call_plan := plan |}] |}.

Definition call_handler (name : string) (handler : Handler A)
    (ctx : sdk.Context) (plan : Plan) : Exec A unit :=
  modify (with_call name handler ctx plan).

Definition MustMarshalBinaryBare (plan : Plan) : Exec A bytes :=
  gets (fun m => MarshalBinaryBare (cdc (kp m)) plan).

Definition MustUnmarshalBinaryBare (bz : bytes) : Exec A Plan :=
  let* c := gets (fun m => cdc (kp m)) in
  match UnmarshalBinaryBare c bz with
  | Some plan => ret plan
  | None => panic "UnmarshalBinaryBare failed"
  end.

(** *** The keeper's methods *)

(** [NewKeeper] constructs an upgrade keeper. *)
Definition NewKeeper (c : Codec) : keeper A :=
  {| cdc := c; upgradeHandlers := ∅; haveCache := false |}.

(** [SetUpgradeHandler] sets the handler for the upgrade of that name. *)
Definition with_handler (name : string) (upgradeHandler : Handler A)
    (m : Machine A) : Machine A :=
  {| kp := {| cdc := cdc (kp m);
              upgradeHandlers :=
                <[name := upgradeHandler]> (upgradeHandlers (kp m));
              haveCache := haveCache (kp m) |};
     cms := cms m;
     invoked := invoked m |}.

Definition SetUpgradeHandler (name : string) (upgradeHandler : Handler A)
    : Exec A unit :=
  modify (with_handler name upgradeHandler).

(** Lines 88 to 97 of [ScheduleUpgrade]: the checks on the target. *)
Definition checkTarget (ctx : sdk.Context) (plan : Plan)
    : option sdk.Error :=
  if negb (time.IsZero (Time plan)) then
    if negb (time.After (Time plan) (abci.Time (sdk.BlockHeader ctx))) then
      Some (sdk.ErrUnknownRequest "Upgrade cannot be scheduled in the past")
    else if negb (Height plan =? 0) then
      Some (sdk.ErrUnknownRequest
              "Only one of Time or Height should be specified")
    else None
  else if Height plan <=? sdk.BlockHeight ctx then
    Some (sdk.ErrUnknownRequest "Upgrade cannot be scheduled in the past")
  else None.

(** [ScheduleUpgrade] schedules an upgrade based on the specified plan.
    The result is Go's [sdk.Error]: [None] is [nil]. *)
Definition ScheduleUpgrade (ctx : sdk.Context) (plan : Plan)
    : Exec A (option sdk.Error) :=
  match ValidateBasic plan with
  | Some err => ret (Some err)
  | None =>
    match checkTarget ctx plan with
    | Some err => ret (Some err)
    | None =>
      let* done_ := store_Has (DoneHeightKey (Name plan)) in
      if (done_ : bool) then
        ret (Some (sdk.ErrUnknownRequest
               (String.append "Upgrade with name "
                  (String.append (Name plan)
                     " has already been completed"))))
      else
        let* bz := MustMarshalBinaryBare plan in
        set_haveCache false;;;
        store_Set PlanKey bz;;;
        ret None
    end
  end.

(** [ClearUpgradePlan] clears any scheduled upgrade. *)
Definition ClearUpgradePlan (ctx : sdk.Context) : Exec A unit :=
  set_haveCache false;;;
  store_Delete PlanKey.

(** [GetUpgradePlan] returns the currently scheduled plan if any, with
    [havePlan] true if there is one. *)
Definition GetUpgradePlan (ctx : sdk.Context) : Exec A (Plan * bool) :=
  let* bz := store_Get PlanKey in
  match bz with
  | None => ret (zeroPlan, false)
  | Some bz =>
      let* plan := MustUnmarshalBinaryBare bz in
      ret (plan, true)
  end.

(** [setDone] marks this upgrade name as being done. *)
Definition setDone (ctx : sdk.Context) (name : string) : Exec A unit :=
  let bz := binary.PutUint64 (uint64 (sdk.BlockHeight ctx)) in
  store_Set (DoneHeightKey name) bz.

(** The condition of line 156. *)
Definition triggered (blockTime : time.Time) (blockHeight : Z)
    (upgradeTime : time.Time) (upgradeHeight : Z) : bool :=
  (negb (time.IsZero upgradeTime) && negb (time.Before blockTime upgradeTime))
  || ((0 <? upgradeHeight) && (upgradeHeight <=? blockHeight)).

(** [BeginBlocker] is called at the start of every block.  Its [req]
    argument is not used by the body and the two log lines have no effect
    on the state; both are left out. *)
Definition BeginBlocker (ctx : sdk.Context) : Exec A unit :=
  let blockTime := abci.Time (sdk.BlockHeader ctx) in
  let blockHeight := sdk.BlockHeight ctx in
  let* r := GetUpgradePlan ctx in
  let '(plan, found) := r in
  if negb found then ret tt
  else
    let upgradeTime := Time plan in
    let upgradeHeight := Height plan in
    if triggered blockTime blockHeight upgradeTime upgradeHeight then
      let* h := lookup_handler (Name plan) in
      match h with
      | Some handler =>
          call_handler (Name plan) handler ctx plan;;;
          ClearUpgradePlan ctx;;;
          setDone ctx (Name plan)
      | None => panic "UPGRADE REQUIRED!"
      end
    else
      let* h := lookup_handler (Name plan) in
      match h with
      | Some _ => panic "BINARY UPDATED BEFORE TRIGGER!"
      | None => ret tt
      end.

End Operations.

(** ** Vocabulary of the statements *)

Definition time_set (plan : Plan) : Prop := Time plan <> 0.
Definition height_set (plan : Plan) : Prop := Height plan <> 0.

(** "Both or neither" of the spec's [InvalidSchedule]. *)
Definition both_or_neither (plan : Plan) : Prop :=
  (time_set plan /\ height_set plan) \/ (~ time_set plan /\ ~ height_set plan).

Definition exactly_one_set (plan : Plan) : Prop :=
  (time_set plan /\ ~ height_set plan) \/ (~ time_set plan /\ height_set plan).

(** The plan gets through lines 84 to 97 of [ScheduleUpgrade]. *)
Definition passes_validations (ctx : sdk.Context) (plan : Plan) : Prop :=
  Name plan <> EmptyString /\
  ((Time plan <> 0 /\ Height plan = 0 /\
    abci.Time (sdk.BlockHeader ctx) < Time plan) \/
   (Time plan = 0 /\ sdk.BlockHeight ctx < Height plan)).

(** The trigger condition in the spec's words: the time is set and the block
    time has reached it, or the height is set (positive) and the block height
    has reached it. *)
Definition trigger_condition (ctx : sdk.Context) (plan : Plan) : Prop :=
  (time_set plan /\ Time plan <= abci.Time (sdk.BlockHeader ctx)) \/
  (0 < Height plan /\ Height plan <= sdk.BlockHeight ctx).

Section Vocabulary.

Context {A : Type}.

(** A DoneRecord for [name] is in the store. *)
Definition hasDone (m : Machine A) (name : string) : Prop :=
  is_Some (upgradeStore (cms m) !! DoneHeightKey name).

(** The machine after a successful [ScheduleUpgrade]. *)
Definition scheduled (plan : Plan) (m : Machine A) : Machine A :=
  with_store (insert PlanKey (MarshalBinaryBare (cdc (kp m)) plan))
    (with_haveCache false m).

(** The machine after [BeginBlocker] has applied [plan] with [handler]:
    lines 161 to 163. *)
Definition applied (ctx : sdk.Context) (plan : Plan) (handler : Handler A)
    (m : Machine A) : Machine A :=
  with_store
    (insert (DoneHeightKey (Name plan))
       (binary.PutUint64 (uint64 (sdk.BlockHeight ctx))))
    (with_store (delete PlanKey)
       (with_haveCache false
          (with_call (Name plan) handler ctx plan m))).

(** What [BeginBlocker] does with a pending plan once the trigger
    condition holds: lines 157 to 168. *)
Definition fire (ctx : sdk.Context) (plan : Plan) (m : Machine A)
    : Res unit * Machine A :=
  match upgradeHandlers (kp m) !! Name plan with
  | Some handler => (Val tt, applied ctx plan handler m)
  | None => (Panic "UPGRADE REQUIRED!", m)
  end.

(** What [BeginBlocker] does with a pending plan while the trigger
    condition does not hold: lines 172 to 176. *)
Definition hold (ctx : sdk.Context) (plan : Plan) (m : Machine A)
    : Res unit * Machine A :=
  match upgradeHandlers (kp m) !! Name plan with
  | Some _ => (Panic "BINARY UPDATED BEFORE TRIGGER!", m)
  | None => (Val tt, m)
  end.

(** The height that the DoneRecord of [name] holds: the persisted 8 bytes
    read back as a big-endian [uint64] and converted to [int64]. *)
Definition doneHeight (m : Machine A) (name : string) : option Z :=
  match upgradeStore (cms m) !! DoneHeightKey name with
  | Some bz => int64 <$> binary.Uint64 bz
  | None => None
  end.

End Vocabulary.

(** ** Histories *)

Section History.

Context {A : Type}.

(** The chain before any operation: a fresh keeper over an empty upgrade
    store. *)
Definition genesis (c : Codec) (a : A) : Machine A :=
  {| kp := NewKeeper c;
     cms := {| upgradeStore := ∅; others := a |};
     invoked := [] |}.

(** What can happen to the keeper: the calls of its interface, the block
    evaluation, and a restart of the node, which builds a fresh keeper
    (and so an empty handler registry) over the same store. *)
Inductive Op : Type :=
| OpScheduleUpgrade (ctx : sdk.Context) (plan : Plan)
| OpClearUpgradePlan (ctx : sdk.Context)
| OpGetUpgradePlan (ctx : sdk.Context)
| OpSetUpgradeHandler (name : string) (handler : Handler A)
| OpBeginBlocker (ctx : sdk.Context)
| OpNewKeeper.

(** One operation.  When it panics the machine is the one at the panic;
    the history may stop there or, as in the tests, go on after a
    recover. *)
Definition step (m : Machine A) (op : Op) : Machine A :=
  match op with
  | OpScheduleUpgrade ctx plan => snd (ScheduleUpgrade ctx plan m)
  | OpClearUpgradePlan ctx => snd (ClearUpgradePlan ctx m)
  | OpGetUpgradePlan ctx => snd (GetUpgradePlan ctx m)
  | OpSetUpgradeHandler name handler =>
      snd (SetUpgradeHandler name handler m)
  | OpBeginBlocker ctx => snd (BeginBlocker ctx m)
  | OpNewKeeper =>
      {| kp := NewKeeper (cdc (kp m)); cms := cms m; invoked := invoked m |}
  end.

Definition run (ops : list Op) (m : Machine A) : Machine A :=
  fold_left step ops m.

(** The upgrade store is private to the keeper, which holds its key: a
    handler reaches the other stores only. *)
Definition leaves_upgrade_store (handler : Handler A) : Prop :=
  forall ctx plan ms,
    upgradeStore (handler ctx plan ms) = upgradeStore ms.

Definition registers_framed (op : Op) : Prop :=
  match op with
  | OpSetUpgradeHandler _ handler => leaves_upgrade_store handler
  | _ => True
  end.

(** How many times the handler of [name] has run. *)
Definition calls_of (name : string) (m : Machine A) : nat :=
  length (filter (fun c => call_name c = name) (invoked m)).

(** The invariant behind "at most once". *)
Record consistent (m : Machine A) : Prop := {
  consistent_codec : codec_roundtrip (cdc (kp m));
  consistent_handlers :
    forall name (handler : Handler A),
      upgradeHandlers (kp m) !! name = Some handler ->
      leaves_upgrade_store handler;
  consistent_pending :
    forall bz, upgradeStore (cms m) !! PlanKey = Some bz ->
      exists plan, bz = MarshalBinaryBare (cdc (kp m)) plan /\
                   ~ hasDone m (Name plan);
  consistent_done :
    forall c, c ∈ invoked m -> hasDone m (call_name c);
  consistent_once : NoDup (call_name <$> invoked m)
}.

(** Every pending plan got there through [ScheduleUpgrade]: it is the
    encoding of a plan that passed the checks at some block. *)
Definition pending_accepted (m : Machine A) : Prop :=
  forall bz, upgradeStore (cms m) !! PlanKey = Some bz ->
    exists ctx plan,
      bz = MarshalBinaryBare (cdc (kp m)) plan /\
      passes_validations ctx plan.

(** Every DoneRecord was written for a handler call of the log, under the
    name of the plan of that call and with the height of its block. *)
Definition done_matches_calls (m : Machine A) : Prop :=
  forall name bz, upgradeStore (cms m) !! DoneHeightKey name = Some bz ->
    exists c, c ∈ invoked m /\ call_name c = name /\
              Name (call_plan c) = name /\
              bz = binary.PutUint64
                     (uint64 (sdk.BlockHeight (call_ctx c))).

End History.

(** ** A concrete instance

    A codec that is good enough to run the keeper on concrete inputs: a plan
    is numbered through its fields and the number is written bit by bit,
    lowest bit first, one byte per bit. *)

Module sample.

Fixpoint bits_of_pos (p : positive) : bytes :=
  match p with
  | xH => []
  | xO q => x00 :: bits_of_pos q
  | xI q => x01 :: bits_of_pos q
  end.

Fixpoint pos_of_bits (bz : bytes) : positive :=
  match bz with
  | [] => xH
  | x00 :: r => xO (pos_of_bits r)
  | _ :: r => xI (pos_of_bits r)
  end.

Definition fields (p : Plan) : string * Z * Z * string :=
  (Name p, Time p, Height p, Info p).

Definition marshal (p : Plan) : bytes := bits_of_pos (encode (fields p)).

Definition unmarshal (bz : bytes) : option Plan :=
  match decode (pos_of_bits bz) with
  | Some (n, t, h, i) =>
      Some {| Name := n; Time := t; Height := h; Info := i |}
  | None => None
  end.

Definition codec : Codec :=
  {| MarshalBinaryBare := marshal; UnmarshalBinaryBare := unmarshal |}.

Definition header (h : Z) (t : time.Time) : sdk.Context :=
  {| sdk.BlockHeader := {| abci.Height := h; abci.Time := t |} |}.

(** The chain before any operation.  What lies outside the upgrade store
    is a counter here. *)
Definition genesis : Machine nat := genesis codec 0%nat.

(** A handler that counts its calls. *)
Definition bump : Handler nat :=
  fun _ _ ms =>
    {| upgradeStore := upgradeStore ms; others := S (others ms) |}.

Definition heightPlan (h : Z) : Plan :=
  {| Name := "test"; Time := 0; Height := h; Info := EmptyString |}.

Definition timePlan (t : time.Time) : Plan :=
  {| Name := "test"; Time := t; Height := 0; Info := EmptyString |}.

(** The plan "test" for height 11 is pending. *)
Definition pending : Machine nat := scheduled (heightPlan 11) genesis.

(** The same, with a handler registered for "test". *)
Definition supported : Machine nat := with_handler "test" bump pending.

(** The history of the test [TestCantApplySameUpgradeTwice], by height:
    schedule "test" for height 11, evaluate block 11 without a handler,
    register the handler, evaluate block 11 again, try to schedule "test"
    once more, evaluate block 12. *)
Definition history : list (@Op nat) :=
  [ OpScheduleUpgrade (header 10 1000) (heightPlan 11);
    OpBeginBlocker (header 11 1001);
    OpSetUpgradeHandler "test" bump;
    OpBeginBlocker (header 11 1001);
    OpScheduleUpgrade (header 11 1001) (heightPlan 12);
    OpBeginBlocker (header 12 1002) ].

(** The sample history in two parts: up to the block that applies "test",
    and what follows. *)
Definition applying : list (@Op nat) := take 4 history.
Definition afterwards : list (@Op nat) := drop 4 history.

End sample.

(** * Properties *)

(** ** The error taxonomy *)

Lemma errors_distinct :
  InvalidPlan <> ScheduleInPast /\ InvalidPlan <> InvalidSchedule /\
  ScheduleInPast <> InvalidSchedule /\
  (forall n, AlreadyCompleted n <> InvalidPlan) /\
  (forall n, AlreadyCompleted n <> ScheduleInPast) /\
  (forall n, AlreadyCompleted n <> InvalidSchedule).
Proof.
  unfold InvalidPlan, ScheduleInPast, InvalidSchedule, AlreadyCompleted,
    sdk.ErrUnknownRequest.
  repeat apply conj; repeat intro;
    match goal with
    | H : _ = _ |- _ => cbv [String.append] in H; discriminate H
    end.
Qed.

Lemma ValidateBasic_None plan :
  ValidateBasic plan = None <-> Name plan <> EmptyString.
Proof.
  unfold ValidateBasic. destruct (Name plan); cbn; split; congruence.
Qed.

Lemma ValidateBasic_Some plan err :
  ValidateBasic plan = Some err ->
  Name plan = EmptyString /\ err = InvalidPlan.
Proof.
  unfold ValidateBasic. destruct (Name plan); cbn; [|discriminate].
  intros [= <-]. done.
Qed.

(** ** The checks on the target *)

Section CheckTarget.

Variable ctx : sdk.Context.
Variable plan : Plan.

Local Abbreviation blockTime := (abci.Time (sdk.BlockHeader ctx)).
Local Abbreviation blockHeight := (sdk.BlockHeight ctx).

Ltac check_cases :=
  unfold checkTarget, time.IsZero, time.After, time.Time in *;
  repeat match goal with
  | |- context [ ?a =? ?b ] => destruct (Z.eqb_spec a b)
  | |- context [ ?a <? ?b ] => destruct (Z.ltb_spec a b)
  | |- context [ ?a <=? ?b ] => destruct (Z.leb_spec a b)
  end; cbn.

Lemma checkTarget_Some err :
  checkTarget ctx plan = Some err ->
  err = ScheduleInPast \/ err = InvalidSchedule.
Proof. check_cases; intros [= <-] || discriminate; auto. Qed.

Lemma checkTarget_InvalidSchedule :
  checkTarget ctx plan = Some InvalidSchedule <->
  Time plan <> 0 /\ blockTime < Time plan /\ Height plan <> 0.
Proof.
  pose proof errors_distinct as (_ & _ & Hd & _).
  check_cases; split; try (intros [= E]); try tauto; try lia;
    try (intros _; repeat split; lia); try done.
Qed.

Lemma checkTarget_ScheduleInPast :
  checkTarget ctx plan = Some ScheduleInPast <->
  (Time plan <> 0 /\ Time plan <= blockTime) \/
  (Time plan = 0 /\ Height plan <= blockHeight).
Proof.
  check_cases; split; try (intros [= E]); try tauto; try lia; try done.
Qed.

Lemma checkTarget_None :
  checkTarget ctx plan = None <->
  (Time plan <> 0 /\ blockTime < Time plan /\ Height plan = 0) \/
  (Time plan = 0 /\ blockHeight < Height plan).
Proof.
  check_cases; split; try (intros [= E]); try tauto; try lia; try done.
Qed.

End CheckTarget.

(** ** Scheduling *)

Section Schedule.

Context {A : Type}.
Implicit Types (m : Machine A) (ctx : sdk.Context) (plan : Plan).

Local Abbreviation blockTime ctx := (abci.Time (sdk.BlockHeader ctx)).

Lemma ScheduleUpgrade_cases ctx plan m :
  ScheduleUpgrade ctx plan m =
    match ValidateBasic plan with
    | Some err => (Val (Some err), m)
    | None =>
      match checkTarget ctx plan with
      | Some err => (Val (Some err), m)
      | None =>
        if bool_decide (hasDone m (Name plan))
        then (Val (Some (AlreadyCompleted (Name plan))), m)
        else (Val None, scheduled plan m)
      end
    end.
Proof.
  unfold ScheduleUpgrade.
  destruct (ValidateBasic plan); [done|].
  destruct (checkTarget ctx plan); [done|].
  unfold bind, store_Has, gets, hasDone.
  destruct (bool_decide _); done.
Qed.

(** [ScheduleUpgrade] always returns: it never panics. *)
Lemma ScheduleUpgrade_returns ctx plan m :
  exists r, fst (ScheduleUpgrade ctx plan m) = Val r.
Proof.
  rewrite ScheduleUpgrade_cases.
  destruct (ValidateBasic plan); [eauto|].
  destruct (checkTarget ctx plan); [eauto|].
  destruct (bool_decide _); eauto.
Qed.

Lemma ScheduleUpgrade_success ctx plan m :
  passes_validations ctx plan -> ~ hasDone m (Name plan) ->
  ScheduleUpgrade ctx plan m = (Val None, scheduled plan m).
Proof.
  intros [Hn Ht] Hd. rewrite ScheduleUpgrade_cases.
  apply ValidateBasic_None in Hn as ->.
  assert (checkTarget ctx plan = None) as ->
    by (apply checkTarget_None; tauto).
  by rewrite bool_decide_eq_false_2.
Qed.

(** C2, as the code has it: for a plan with a non-empty name,
    [ScheduleUpgrade] fails with [InvalidSchedule] exactly when both the
    time and the height are set and the time is strictly after the current
    block time.  A plan with neither set is rejected with [ScheduleInPast]
    at every non-negative block height, and a plan with both set whose
    time is not after the current block time is rejected with
    [ScheduleInPast]. *)
Theorem ScheduleUpgrade_InvalidSchedule_iff ctx plan m :
  Name plan <> EmptyString ->
  (fst (ScheduleUpgrade ctx plan m) = Val (Some InvalidSchedule) <->
     time_set plan /\ height_set plan /\ blockTime ctx < Time plan) /\
  (~ time_set plan -> ~ height_set plan -> 0 <= sdk.BlockHeight ctx ->
     ScheduleUpgrade ctx plan m = (Val (Some ScheduleInPast), m)) /\
  (time_set plan -> height_set plan -> Time plan <= blockTime ctx ->
     ScheduleUpgrade ctx plan m = (Val (Some ScheduleInPast), m)).
Proof.
  intros Hn. unfold time_set, height_set.
  pose proof errors_distinct as (_ & _ & Hpi & _ & _ & Hai).
  rewrite ScheduleUpgrade_cases.
  apply ValidateBasic_None in Hn as ->.
  split; [|split].
  - pose proof (checkTarget_InvalidSchedule ctx plan) as Hi.
    destruct (checkTarget ctx plan) as [e|] eqn:E; cbn.
    + split; [intros [= ->]; tauto|].
      intros H. do 2 f_equal.
      assert (Some e = Some InvalidSchedule) by tauto. congruence.
    + split.
      * destruct (bool_decide _); cbn; [|discriminate].
        intros H. exfalso. apply (Hai (Name plan)). congruence.
      * intros H.
        assert (None = Some InvalidSchedule) by tauto. discriminate.
  - intros Ht Hh Hb.
    assert (checkTarget ctx plan = Some ScheduleInPast) as ->; [|done].
    apply checkTarget_ScheduleInPast. lia.
  - intros Ht Hh Hb.
    assert (checkTarget ctx plan = Some ScheduleInPast) as ->; [|done].
    apply checkTarget_ScheduleInPast. lia.
Qed.

(** C7: a plan that passes the other validations and whose name already
    has a DoneRecord is refused with [AlreadyCompleted], and nothing is
    written: the machine, and so the store, is as before. *)
Theorem ScheduleUpgrade_AlreadyCompleted ctx plan m :
  hasDone m (Name plan) ->
  passes_validations ctx plan ->
  ScheduleUpgrade ctx plan m = (Val (Some (AlreadyCompleted (Name plan))), m).
Proof.
  intros Hd [Hn Ht]. rewrite ScheduleUpgrade_cases.
  apply ValidateBasic_None in Hn as ->.
  assert (checkTarget ctx plan = None) as ->
    by (apply checkTarget_None; tauto).
  by rewrite bool_decide_eq_true_2.
Qed.

(** C8, as the code has it: for a plan with a non-empty name and exactly
    one of height and time set, [ScheduleUpgrade] fails with
    [ScheduleInPast] exactly when the target is not strictly greater than
    the current block's: a time at or before the block time, a height at
    or below the block height. *)
Theorem ScheduleUpgrade_ScheduleInPast_iff ctx plan m :
  Name plan <> EmptyString ->
  exactly_one_set plan ->
  (time_set plan ->
     fst (ScheduleUpgrade ctx plan m) = Val (Some ScheduleInPast) <->
     Time plan <= blockTime ctx) /\
  (height_set plan ->
     fst (ScheduleUpgrade ctx plan m) = Val (Some ScheduleInPast) <->
     Height plan <= sdk.BlockHeight ctx).
Proof.
  intros Hn Hone. unfold exactly_one_set, time_set, height_set in *.
  pose proof errors_distinct as (_ & _ & _ & _ & Hap & _).
  rewrite ScheduleUpgrade_cases.
  apply ValidateBasic_None in Hn as ->.
  pose proof (checkTarget_ScheduleInPast ctx plan) as Hp.
  destruct (checkTarget ctx plan) as [e|] eqn:E; cbn.
  - assert (Val (Some e) = Val (Some ScheduleInPast) <->
            Some e = Some ScheduleInPast) as ->
      by (split; congruence).
    rewrite Hp. split; intros; lia.
  - assert (forall r : Res (option sdk.Error) * Machine A,
              r = (Val (Some (AlreadyCompleted (Name plan))), m) \/
              r = (Val None, scheduled plan m) ->
              fst r = Val (Some ScheduleInPast) <-> False) as Hr.
    { intros r [-> | ->]; cbn; split; try done; try discriminate;
        intros H; apply (Hap (Name plan)); congruence. }
    rewrite Hr by (destruct (bool_decide _); auto).
    assert (~ ((Time plan <> 0 /\ Time plan <= blockTime ctx) \/
               (Time plan = 0 /\ Height plan <= sdk.BlockHeight ctx)))
      as Hnp by (rewrite <- Hp; discriminate).
    split; intros; lia.
Qed.

(** C10: whenever [ScheduleUpgrade] returns an error, the machine is
    exactly as before the call: no store write (the pending plan and every
    DoneRecord are untouched) and no change to the keeper.  The error is
    one of the four of the taxonomy. *)
Theorem ScheduleUpgrade_error_no_write ctx plan m err :
  fst (ScheduleUpgrade ctx plan m) = Val (Some err) ->
  snd (ScheduleUpgrade ctx plan m) = m /\
  (err = InvalidPlan \/ err = InvalidSchedule \/ err = ScheduleInPast \/
   err = AlreadyCompleted (Name plan)).
Proof.
  rewrite ScheduleUpgrade_cases.
  destruct (ValidateBasic plan) as [e|] eqn:Ev; cbn.
  { intros [= ->]. apply ValidateBasic_Some in Ev as [_ ->]. auto. }
  destruct (checkTarget ctx plan) as [e|] eqn:Ec; cbn.
  { intros [= ->]. apply checkTarget_Some in Ec as [-> | ->]; auto. }
  destruct (bool_decide _); cbn; [|discriminate].
  intros [= <-]. auto 6.
Qed.

End Schedule.

(** *** Concrete runs of [ScheduleUpgrade] *)

Lemma sample_codec_roundtrip : codec_roundtrip sample.codec.
Proof.
  intros [n t h i]. cbn. unfold sample.unmarshal, sample.marshal.
  assert (forall p, sample.pos_of_bits (sample.bits_of_pos p) = p) as ->
    by (induction p; cbn; congruence).
  by rewrite decode_encode.
Qed.

(** C2 as stated fails: at height 10, a named plan with neither height nor
    time set is refused with [ScheduleInPast], not [InvalidSchedule]; so is
    a named plan with both set whose time is in the past. *)
Lemma ScheduleUpgrade_neither_set_is_ScheduleInPast :
  let ctx := sample.header 10 1000 in
  let neither := sample.heightPlan 0 in
  let both :=
    {| Name := "test"; Time := 500; Height := 11; Info := EmptyString |} in
  (Name neither <> EmptyString /\ both_or_neither neither /\
   fst (ScheduleUpgrade ctx neither sample.genesis)
     = Val (Some ScheduleInPast) /\
   fst (ScheduleUpgrade ctx neither sample.genesis)
     <> Val (Some InvalidSchedule)) /\
  (Name both <> EmptyString /\ both_or_neither both /\
   fst (ScheduleUpgrade ctx both sample.genesis)
     = Val (Some ScheduleInPast) /\
   fst (ScheduleUpgrade ctx both sample.genesis)
     <> Val (Some InvalidSchedule)).
Proof.
  cbv zeta. unfold both_or_neither, time_set, height_set. cbn.
  repeat apply conj; try done; try (left; split; done);
    try (right; split; intros H; by apply H).
Qed.

Lemma ScheduleUpgrade_InvalidSchedule_iff_witness :
  let ctx := sample.header 10 1000 in
  let plan :=
    {| Name := "test"; Time := 2000; Height := 11; Info := EmptyString |} in
  fst (ScheduleUpgrade ctx plan sample.genesis) = Val (Some InvalidSchedule).
Proof.
  cbv zeta.
  apply (ScheduleUpgrade_InvalidSchedule_iff (sample.header 10 1000)
           {| Name := "test"; Time := 2000; Height := 11;
              Info := EmptyString |} sample.genesis).
  - discriminate.
  - unfold time_set, height_set; cbn. lia.
Defined.

Lemma ScheduleUpgrade_AlreadyCompleted_witness :
  let ctx := sample.header 10 1000 in
  let m := with_store (insert (DoneHeightKey "test") (binary.PutUint64 7))
             sample.genesis in
  ScheduleUpgrade ctx (sample.heightPlan 11) m
    = (Val (Some (AlreadyCompleted "test")), m).
Proof.
  cbv zeta.
  apply (ScheduleUpgrade_AlreadyCompleted (sample.header 10 1000)
           (sample.heightPlan 11)).
  - unfold hasDone; cbn. rewrite lookup_insert_eq. eauto.
  - unfold passes_validations; cbn. split; [discriminate | lia].
Defined.

(** C8 as stated fails: a plan with only a height set, at or below the
    current height, but with an empty name, is refused with [InvalidPlan],
    not [ScheduleInPast]. *)
Lemma ScheduleUpgrade_empty_name_not_ScheduleInPast :
  let ctx := sample.header 10 1000 in
  let plan :=
    {| Name := EmptyString; Time := 0; Height := 5; Info := EmptyString |} in
  exactly_one_set plan /\ Height plan <= sdk.BlockHeight ctx /\
  fst (ScheduleUpgrade ctx plan sample.genesis) = Val (Some InvalidPlan) /\
  fst (ScheduleUpgrade ctx plan sample.genesis) <> Val (Some ScheduleInPast).
Proof.
  cbv zeta. unfold exactly_one_set, time_set, height_set. cbn.
  repeat apply conj; try done.
  right. split; [intros H; by apply H | done].
Qed.

Lemma ScheduleUpgrade_ScheduleInPast_iff_witness :
  let ctx := sample.header 10 1000 in
  fst (ScheduleUpgrade ctx (sample.heightPlan 10) sample.genesis)
    = Val (Some ScheduleInPast) /\
  fst (ScheduleUpgrade ctx (sample.timePlan 1001) sample.genesis)
    <> Val (Some ScheduleInPast).
Proof.
  cbv zeta. split.
  - destruct (ScheduleUpgrade_ScheduleInPast_iff (sample.header 10 1000)
                (sample.heightPlan 10) sample.genesis) as [_ Hh].
    + discriminate.
    + unfold exactly_one_set, time_set, height_set; cbn. lia.
    + apply Hh; [unfold height_set|]; cbn; lia.
  - destruct (ScheduleUpgrade_ScheduleInPast_iff (sample.header 10 1000)
                (sample.timePlan 1001) sample.genesis) as [Ht _].
    + discriminate.
    + unfold exactly_one_set, time_set, height_set; cbn. lia.
    + intros H. apply Ht in H; [|unfold time_set]; cbn in *; lia.
Defined.

Lemma ScheduleUpgrade_error_no_write_witness :
  let ctx := sample.header 10 1000 in
  snd (ScheduleUpgrade ctx (sample.heightPlan 10) sample.genesis)
    = sample.genesis.
Proof.
  cbv zeta.
  apply (ScheduleUpgrade_error_no_write (sample.header 10 1000)
           (sample.heightPlan 10) sample.genesis ScheduleInPast).
  reflexivity.
Defined.

(** ** The persisted height *)

Section BigEndian.

Lemma of_byte_byte_of v : binary.of_byte (binary.byte_of v) = Z.land v 255.
Proof.
  unfold binary.of_byte, binary.byte_of.
  assert (0 <= Z.land v 255 < 256) as Hr.
  { change 255 with (Z.ones 8). rewrite Z.land_ones by lia.
    apply Z.mod_pos_bound. lia. }
  destruct (Byte.of_N (Z.to_N (Z.land v 255))) as [b|] eqn:E; cbn.
  - apply Byte.to_of_N in E. rewrite E. lia.
  - apply Byte.of_N_None_iff in E. lia.
Qed.

Lemma testbit_255 n : 0 <= n -> Z.testbit 255 n = (n <? 8).
Proof.
  intros Hn. change 255 with (Z.ones 8).
  destruct (Z.ltb_spec n 8).
  - apply Z.ones_spec_low. lia.
  - apply Z.ones_spec_high. lia.
Qed.

(** Bit [n] of the byte of [v] at offset [k], put back at offset [k]. *)
Lemma testbit_byte_at v k n :
  0 <= k -> 0 <= n ->
  Z.testbit (Z.shiftl (Z.land (Z.shiftr v k) 255) k) n =
    (k <=? n) && (n <? k + 8) && Z.testbit v n.
Proof.
  intros Hk Hn. rewrite Z.shiftl_spec by lia.
  destruct (Z.leb_spec k n); cbn.
  - rewrite Z.land_spec, Z.shiftr_spec, testbit_255 by lia.
    replace (n - k + k) with n by lia.
    rewrite andb_comm. f_equal.
    destruct (Z.ltb_spec (n - k) 8), (Z.ltb_spec n (k + 8)); lia || done.
  - apply Z.testbit_neg_r. lia.
Qed.

Lemma Uint64_PutUint64 v :
  0 <= v < 2 ^ 64 -> binary.Uint64 (binary.PutUint64 v) = Some v.
Proof.
  intros Hv. unfold binary.PutUint64, binary.Uint64. f_equal.
  rewrite !of_byte_byte_of.
  apply Z.bits_inj'. intros n Hn.
  rewrite <- (Z.shiftl_0_r (Z.land v 255)).
  rewrite <- (Z.shiftr_0_r v) at 1.
  rewrite !Z.lor_spec, !testbit_byte_at by lia.
  destruct (Z.ltb_spec n 64) as [Hlt|Hge].
  - destruct (Z.testbit v n); [|by rewrite !andb_false_r].
    rewrite !andb_true_r.
    repeat match goal with
    | |- context [ ?a <=? ?b ] => destruct (Z.leb_spec a b); try lia
    | |- context [ ?a <? ?b ] => destruct (Z.ltb_spec a b); try lia
    end; done.
  - assert (Z.testbit v n = false) as ->; [|by rewrite !andb_false_r].
    destruct (Z.eq_dec v 0) as [->|]; [apply Z.bits_0|].
    apply Z.bits_above_log2; [lia|].
    assert (Z.log2 v < 64); [|lia].
    apply Z.log2_lt_pow2; lia.
Qed.

Lemma int64_uint64 h : int64_range h -> int64 (uint64 h) = h.
Proof.
  unfold int64_range, int64, uint64. intros Hh.
  destruct (Z.neg_nonneg_cases h) as [Hneg|Hpos].
  - replace (h mod 2 ^ 64) with (h + 2 ^ 64)
      by (apply Z.mod_unique with (q := -1); lia).
    destruct (Z.ltb_spec (h + 2 ^ 64) (2 ^ 63)); lia.
  - rewrite Z.mod_small by lia.
    destruct (Z.ltb_spec h (2 ^ 63)); lia.
Qed.

(** What [setDone] writes reads back as the block height. *)
Lemma height_roundtrip h :
  int64_range h ->
  int64 <$> binary.Uint64 (binary.PutUint64 (uint64 h)) = Some h.
Proof.
  intros Hh. rewrite Uint64_PutUint64; cbn.
  - by rewrite int64_uint64.
  - apply Z.mod_pos_bound. lia.
Qed.

End BigEndian.

(** ** The per-block evaluation *)

Section BeginBlock.

Context {A : Type}.
Implicit Types (m : Machine A) (ctx : sdk.Context) (plan : Plan).

Local Abbreviation blockTime ctx := (abci.Time (sdk.BlockHeader ctx)).

Lemma GetUpgradePlan_cases ctx m :
  GetUpgradePlan ctx m =
    match upgradeStore (cms m) !! PlanKey with
    | None => (Val (zeroPlan, false), m)
    | Some bz =>
      match UnmarshalBinaryBare (cdc (kp m)) bz with
      | Some plan => (Val (plan, true), m)
      | None => (Panic "UnmarshalBinaryBare failed", m)
      end
    end.
Proof.
  unfold GetUpgradePlan, bind, store_Get, gets.
  destruct (upgradeStore (cms m) !! PlanKey) as [bz|]; [|done].
  unfold MustUnmarshalBinaryBare, bind, gets.
  by destruct (UnmarshalBinaryBare (cdc (kp m)) bz).
Qed.

(** [GetUpgradePlan] is a read-only lookup. *)
Lemma GetUpgradePlan_read_only ctx m : snd (GetUpgradePlan ctx m) = m.
Proof.
  rewrite GetUpgradePlan_cases.
  destruct (upgradeStore (cms m) !! PlanKey) as [bz|]; [|done].
  by destruct (UnmarshalBinaryBare (cdc (kp m)) bz).
Qed.

Lemma GetUpgradePlan_found ctx plan m :
  fst (GetUpgradePlan ctx m) = Val (plan, true) <->
  exists bz, upgradeStore (cms m) !! PlanKey = Some bz /\
             UnmarshalBinaryBare (cdc (kp m)) bz = Some plan.
Proof.
  rewrite GetUpgradePlan_cases.
  destruct (upgradeStore (cms m) !! PlanKey) as [bz|]; cbn.
  - destruct (UnmarshalBinaryBare (cdc (kp m)) bz) as [p|] eqn:E; cbn.
    + split; [intros [= ->]; eauto|]. intros (? & [= <-] & ?). congruence.
    + split; [discriminate|]. intros (? & [= <-] & ?). congruence.
  - split; [discriminate|]. intros (? & ? & _). discriminate.
Qed.

Lemma GetUpgradePlan_not_found ctx plan m :
  fst (GetUpgradePlan ctx m) = Val (plan, false) <->
  upgradeStore (cms m) !! PlanKey = None /\ plan = zeroPlan.
Proof.
  rewrite GetUpgradePlan_cases.
  destruct (upgradeStore (cms m) !! PlanKey) as [bz|]; cbn.
  - destruct (UnmarshalBinaryBare (cdc (kp m)) bz); cbn;
      split; try discriminate; intros [? _]; discriminate.
  - split; [intros [= <-]; done | intros [_ ->]; done].
Qed.

Lemma triggered_iff ctx plan :
  triggered (blockTime ctx) (sdk.BlockHeight ctx) (Time plan) (Height plan)
    = true <-> trigger_condition ctx plan.
Proof.
  unfold triggered, trigger_condition, time_set, time.IsZero, time.Before,
    time.Time.
  rewrite orb_true_iff, !andb_true_iff, !negb_true_iff.
  rewrite Z.eqb_neq, Z.ltb_ge, Z.ltb_lt, Z.leb_le. done.
Qed.

Lemma BeginBlocker_pending ctx plan m :
  fst (GetUpgradePlan ctx m) = Val (plan, true) ->
  BeginBlocker ctx m =
    if triggered (blockTime ctx) (sdk.BlockHeight ctx)
         (Time plan) (Height plan)
    then fire ctx plan m else hold ctx plan m.
Proof.
  intros Hg. pose proof (GetUpgradePlan_read_only ctx m) as Hs.
  unfold BeginBlocker, bind at 1.
  destruct (GetUpgradePlan ctx m) as [r m']; cbn in Hg, Hs; subst; cbn.
  unfold fire, hold, bind, lookup_handler, gets.
  destruct (triggered _ _ _ _);
    destruct (upgradeHandlers (kp m) !! Name plan); done.
Qed.

Lemma BeginBlocker_fire ctx plan m :
  fst (GetUpgradePlan ctx m) = Val (plan, true) ->
  trigger_condition ctx plan -> BeginBlocker ctx m = fire ctx plan m.
Proof.
  intros Hg Ht. rewrite (BeginBlocker_pending ctx plan m Hg).
  apply triggered_iff in Ht. by rewrite Ht.
Qed.

Lemma BeginBlocker_hold ctx plan m :
  fst (GetUpgradePlan ctx m) = Val (plan, true) ->
  ~ trigger_condition ctx plan -> BeginBlocker ctx m = hold ctx plan m.
Proof.
  intros Hg Ht. rewrite (BeginBlocker_pending ctx plan m Hg).
  rewrite <- triggered_iff in Ht. by destruct (triggered _ _ _ _).
Qed.

Lemma fire_hold_differ ctx plan m : fire ctx plan m <> hold ctx plan m.
Proof.
  unfold fire, hold.
  destruct (upgradeHandlers (kp m) !! Name plan); discriminate.
Qed.

(** C3: with a plan pending, [BeginBlocker] takes the trigger branch
    exactly when the plan's time is set and the block time has reached it,
    or the plan's height is positive and the block height has reached it;
    the condition computed at line 156 is that one. *)
Theorem BeginBlocker_trigger_decision ctx plan m :
  fst (GetUpgradePlan ctx m) = Val (plan, true) ->
  (triggered (blockTime ctx) (sdk.BlockHeight ctx) (Time plan) (Height plan)
     = true <-> trigger_condition ctx plan) /\
  (trigger_condition ctx plan -> BeginBlocker ctx m = fire ctx plan m) /\
  (~ trigger_condition ctx plan -> BeginBlocker ctx m = hold ctx plan m) /\
  fire ctx plan m <> hold ctx plan m.
Proof.
  intros Hg. split; [apply triggered_iff|].
  split; [by apply BeginBlocker_fire|].
  split; [by apply BeginBlocker_hold|apply fire_hold_differ].
Qed.

(** C4: when the pending plan is triggered and a handler is registered
    for its name, [BeginBlocker] returns normally; the handler has been
    called once more, with the block's context and the plan; the store is
    what the handler left, with the pending plan deleted and the
    DoneRecord of the plan's name set to the block height;
    [GetUpgradePlan] then reports not found. *)
Theorem BeginBlocker_applies_upgrade ctx plan (handler : Handler A) m :
  fst (GetUpgradePlan ctx m) = Val (plan, true) ->
  trigger_condition ctx plan ->
  upgradeHandlers (kp m) !! Name plan = Some handler ->
  let m' := snd (BeginBlocker ctx m) in
  fst (BeginBlocker ctx m) = Val tt /\
  invoked m' = invoked m ++
    [{| call_name := Name plan; call_ctx := ctx; call_plan := plan |}] /\
  others (cms m') = others (handler ctx plan (cms m)) /\
  upgradeStore (cms m') =
    <[DoneHeightKey (Name plan) :=
        binary.PutUint64 (uint64 (sdk.BlockHeight ctx))]>
      (delete PlanKey (upgradeStore (handler ctx plan (cms m)))) /\
  (forall ctx', GetUpgradePlan ctx' m' = (Val (zeroPlan, false), m')) /\
  (int64_range (sdk.BlockHeight ctx) ->
     doneHeight m' (Name plan) = Some (sdk.BlockHeight ctx)).
Proof.
  intros Hg Ht Hh.
  rewrite (BeginBlocker_fire ctx plan m Hg Ht).
  unfold fire. rewrite Hh. cbn [fst snd].
  repeat apply conj; try done.
  - intros ctx'. rewrite GetUpgradePlan_cases. cbn.
    rewrite lookup_insert_ne by done. by rewrite lookup_delete_eq.
  - intros Hr. unfold doneHeight. cbn. rewrite lookup_insert_eq.
    by apply height_roundtrip.
Qed.

(** C5: when the pending plan is triggered and no handler is registered
    for its name, [BeginBlocker] panics, and the machine at the panic is
    the one before the call: neither the pending plan nor any DoneRecord
    has been touched, and no handler has run. *)
Theorem BeginBlocker_missing_handler_halts ctx plan m :
  fst (GetUpgradePlan ctx m) = Val (plan, true) ->
  trigger_condition ctx plan ->
  upgradeHandlers (kp m) !! Name plan = None ->
  BeginBlocker ctx m = (Panic "UPGRADE REQUIRED!", m).
Proof.
  intros Hg Ht Hh.
  rewrite (BeginBlocker_fire ctx plan m Hg Ht).
  unfold fire. by rewrite Hh.
Qed.

(** C6: when a plan is pending and not yet triggered, [BeginBlocker]
    panics if a handler is registered for the plan's name, and otherwise
    returns with the machine, and so the pending plan, unchanged. *)
Theorem BeginBlocker_before_trigger ctx plan m :
  fst (GetUpgradePlan ctx m) = Val (plan, true) ->
  ~ trigger_condition ctx plan ->
  (is_Some (upgradeHandlers (kp m) !! Name plan) ->
     BeginBlocker ctx m = (Panic "BINARY UPDATED BEFORE TRIGGER!", m)) /\
  (upgradeHandlers (kp m) !! Name plan = None ->
     BeginBlocker ctx m = (Val tt, m) /\
     fst (GetUpgradePlan ctx m) = Val (plan, true)).
Proof.
  intros Hg Ht.
  rewrite (BeginBlocker_hold ctx plan m Hg Ht).
  unfold hold. split.
  - by intros [h ->].
  - by intros ->.
Qed.

Lemma BeginBlocker_unscheduled ctx m :
  upgradeStore (cms m) !! PlanKey = None -> BeginBlocker ctx m = (Val tt, m).
Proof.
  intros Hn. unfold BeginBlocker, bind at 1.
  rewrite GetUpgradePlan_cases, Hn. done.
Qed.

(** C9: with no pending plan, [BeginBlocker] returns normally and the
    machine is exactly as before: no handler call is recorded and the
    store (the pending-plan slot and every DoneRecord) is unchanged. *)
Theorem BeginBlocker_no_plan ctx plan m :
  fst (GetUpgradePlan ctx m) = Val (plan, false) ->
  BeginBlocker ctx m = (Val tt, m).
Proof.
  intros Hg. apply BeginBlocker_unscheduled.
  by apply GetUpgradePlan_not_found in Hg as [Hn _].
Qed.

End BeginBlock.

(** *** Concrete runs of [BeginBlocker] *)

Lemma BeginBlocker_trigger_decision_witness :
  BeginBlocker (sample.header 11 1000) sample.pending
    = fire (sample.header 11 1000) (sample.heightPlan 11) sample.pending /\
  BeginBlocker (sample.header 10 1000) sample.pending
    = hold (sample.header 10 1000) (sample.heightPlan 11) sample.pending.
Proof.
  split.
  - apply (BeginBlocker_trigger_decision (sample.header 11 1000)
             (sample.heightPlan 11) sample.pending).
    + vm_compute. reflexivity.
    + right. cbn. lia.
  - apply (BeginBlocker_trigger_decision (sample.header 10 1000)
             (sample.heightPlan 11) sample.pending).
    + vm_compute. reflexivity.
    + unfold trigger_condition, time_set. cbn. lia.
Defined.

Lemma BeginBlocker_applies_upgrade_witness :
  let ctx := sample.header 11 1000 in
  let m' := snd (BeginBlocker ctx sample.supported) in
  fst (BeginBlocker ctx sample.supported) = Val tt /\
  invoked m' =
    [{| call_name := "test"; call_ctx := ctx;
        call_plan := sample.heightPlan 11 |}] /\
  others (cms m') = 1%nat /\
  fst (GetUpgradePlan ctx m') = Val (zeroPlan, false) /\
  doneHeight m' "test" = Some 11.
Proof.
  cbv zeta.
  destruct (BeginBlocker_applies_upgrade (sample.header 11 1000)
              (sample.heightPlan 11) sample.bump sample.supported)
    as (Hr & Hi & Ho & _ & Hg & Hd).
  - vm_compute. reflexivity.
  - right. cbn. lia.
  - reflexivity.
  - repeat apply conj.
    + exact Hr.
    + exact Hi.
    + exact Ho.
    + by rewrite Hg.
    + apply Hd. unfold int64_range. cbn. lia.
Defined.

Lemma BeginBlocker_missing_handler_halts_witness :
  BeginBlocker (sample.header 11 1000) sample.pending
    = (Panic "UPGRADE REQUIRED!", sample.pending).
Proof.
  apply (BeginBlocker_missing_handler_halts (sample.header 11 1000)
           (sample.heightPlan 11) sample.pending).
  - vm_compute. reflexivity.
  - right. cbn. lia.
  - reflexivity.
Defined.

Lemma BeginBlocker_before_trigger_witness :
  BeginBlocker (sample.header 10 1000) sample.supported
    = (Panic "BINARY UPDATED BEFORE TRIGGER!", sample.supported) /\
  BeginBlocker (sample.header 10 1000) sample.pending
    = (Val tt, sample.pending).
Proof.
  split.
  - apply (BeginBlocker_before_trigger (sample.header 10 1000)
             (sample.heightPlan 11) sample.supported).
    + vm_compute. reflexivity.
    + unfold trigger_condition, time_set. cbn. lia.
    + exists sample.bump. reflexivity.
  - apply (BeginBlocker_before_trigger (sample.header 10 1000)
             (sample.heightPlan 11) sample.pending).
    + vm_compute. reflexivity.
    + unfold trigger_condition, time_set. cbn. lia.
    + reflexivity.
Defined.

Lemma BeginBlocker_no_plan_witness :
  BeginBlocker (sample.header 10 1000) sample.genesis
    = (Val tt, sample.genesis).
Proof.
  apply (BeginBlocker_no_plan (sample.header 10 1000) zeroPlan sample.genesis).
  reflexivity.
Defined.

(** ** At most once *)

Section AtMostOnce.

Context {A : Type}.
Implicit Types (m : Machine A) (ctx : sdk.Context) (plan : Plan).

Lemma PlanKey_not_DoneHeightKey name : PlanKey <> DoneHeightKey name.
Proof. discriminate. Qed.

Lemma DoneHeightKey_not_PlanKey name : DoneHeightKey name <> PlanKey.
Proof. discriminate. Qed.

Local Arguments DoneHeightKey : simpl never.
Local Arguments PlanKey : simpl never.

Lemma DoneHeightKey_inj n1 n2 :
  DoneHeightKey n1 = DoneHeightKey n2 -> n1 = n2.
Proof.
  unfold DoneHeightKey. intros [= H].
  rewrite <- (string_of_list_byte_of_string n1),
          <- (string_of_list_byte_of_string n2).
  by rewrite H.
Qed.

Lemma consistent_genesis (c : Codec) (a : A) :
  codec_roundtrip c -> consistent (genesis c a).
Proof.
  intros Hc. split; cbn; try done.
  - intros c0 H. by apply elem_of_nil in H.
  - constructor.
Qed.

(** Writing the pending plan does not touch the DoneRecords. *)
Lemma hasDone_scheduled plan m name :
  hasDone (scheduled plan m) name <-> hasDone m name.
Proof.
  unfold hasDone, scheduled. cbn.
  by rewrite lookup_insert_ne by apply PlanKey_not_DoneHeightKey.
Qed.

Lemma consistent_scheduled plan m :
  ~ hasDone m (Name plan) -> consistent m -> consistent (scheduled plan m).
Proof.
  intros Hd [Hc Hh Hp Hdone Honce]. split; try done.
  - cbn. intros bz. rewrite lookup_insert_eq. intros [= <-].
    exists plan. split; [done|]. by rewrite hasDone_scheduled.
  - intros c Hin. rewrite hasDone_scheduled. by apply Hdone.
Qed.

Lemma consistent_cleared ctx m :
  consistent m -> consistent (snd (ClearUpgradePlan ctx m)).
Proof.
  intros [Hc Hh Hp Hdone Honce]. split; try done.
  - cbn. intros bz. by rewrite lookup_delete_eq.
  - intros c Hin. unfold hasDone. cbn.
    rewrite lookup_delete_ne by apply PlanKey_not_DoneHeightKey.
    by apply Hdone.
Qed.

Lemma consistent_applied ctx plan (handler : Handler A) m :
  leaves_upgrade_store handler ->
  ~ hasDone m (Name plan) ->
  consistent m -> consistent (applied ctx plan handler m).
Proof.
  intros Hf Hd [Hc Hh Hp Hdone Honce]. split; try done.
  - cbn. intros bz.
    rewrite lookup_insert_ne by apply DoneHeightKey_not_PlanKey.
    by rewrite lookup_delete_eq.
  - cbn. intros c Hin. unfold hasDone. cbn. rewrite Hf.
    apply elem_of_app in Hin as [Hin | Hin].
    + destruct (decide (DoneHeightKey (Name plan)
                        = DoneHeightKey (call_name c))) as [-> | Hne].
      * rewrite lookup_insert_eq. eauto.
      * rewrite lookup_insert_ne by done.
        rewrite lookup_delete_ne by apply PlanKey_not_DoneHeightKey.
        by apply Hdone.
    + apply list_elem_of_singleton in Hin as ->. cbn.
      rewrite lookup_insert_eq. eauto.
  - cbn. rewrite fmap_app. cbn. apply NoDup_app. split; [done|]. split.
    + intros n Hin Hn. apply list_elem_of_singleton in Hn as ->.
      apply list_elem_of_fmap in Hin as (c & Hc' & Hin).
      apply Hd. rewrite Hc'. by apply Hdone.
    + apply NoDup_singleton.
Qed.

Lemma consistent_step m op :
  registers_framed op -> consistent m -> consistent (step m op).
Proof.
  intros Hop Hm.
  destruct op as [ctx plan|ctx|ctx|name handler|ctx|]; unfold step.
  - rewrite ScheduleUpgrade_cases.
    destruct (ValidateBasic plan); [done|].
    destruct (checkTarget ctx plan); [done|].
    destruct (bool_decide (hasDone m (Name plan))) eqn:E; [done|].
    apply bool_decide_eq_false in E. by apply consistent_scheduled.
  - by apply consistent_cleared.
  - by rewrite GetUpgradePlan_read_only.
  - destruct Hm as [Hc Hh Hp Hdone Honce]. split; try done.
    cbn. intros n h. rewrite lookup_insert.
    case_decide; [intros [= <-]; exact Hop | apply Hh].
  - destruct (upgradeStore (cms m) !! PlanKey) as [bz|] eqn:Eb.
    + destruct (consistent_pending m Hm bz Eb) as (plan & -> & Hnd).
      assert (fst (GetUpgradePlan ctx m) = Val (plan, true)) as Hg.
      { apply GetUpgradePlan_found. eexists. split; [done|].
        by apply consistent_codec. }
      rewrite (BeginBlocker_pending ctx plan m Hg).
      destruct (triggered _ _ _ _); [unfold fire | unfold hold];
        destruct (upgradeHandlers (kp m) !! Name plan) as [h|] eqn:Eh;
        cbn; try done.
      apply consistent_applied; try done.
      by apply (consistent_handlers m Hm (Name plan)).
    + by rewrite BeginBlocker_unscheduled.
  - destruct Hm as [Hc Hh Hp Hdone Honce]. by split.
Qed.

Lemma consistent_run ops m :
  Forall registers_framed ops -> consistent m -> consistent (run ops m).
Proof.
  intros Hops. revert m.
  induction Hops as [|op ops Hop _ IH]; intros m Hm; cbn; [done|].
  apply IH. by apply consistent_step.
Qed.

Lemma filter_name_absent (name : string) (l : list (@Call))
  : name ∉ call_name <$> l ->
    filter (fun c => call_name c = name) l = [].
Proof.
  induction l as [|c l IH]; [done|].
  rewrite fmap_cons, not_elem_of_cons. intros [Hne Hl].
  rewrite filter_cons_False by congruence. by apply IH.
Qed.

Lemma NoDup_names_at_most_once (name : string) (l : list (@Call)) :
  NoDup (call_name <$> l) ->
  (length (filter (fun c => call_name c = name) l) <= 1)%nat.
Proof.
  induction l as [|c l IH]; [cbn; lia|].
  rewrite fmap_cons, NoDup_cons. intros [Hc Hl].
  destruct (decide (call_name c = name)) as [<-|Hne].
  - rewrite filter_cons_True by done.
    rewrite filter_name_absent by done. cbn. lia.
  - rewrite filter_cons_False by done. by apply IH.
Qed.

(** C1: from genesis, along every sequence of calls of the keeper's
    interface, block evaluations and restarts, the handler of a given name
    has run at most once; every handler that has run has its DoneRecord,
    and no plan is pending under a name that has one.  The codec
    satisfies the round trip and registered handlers leave the upgrade
    module's own store alone. *)
Theorem handler_runs_at_most_once (c : Codec) (a : A) (ops : list Op)
    (name : string) :
  codec_roundtrip c ->
  Forall registers_framed ops ->
  let m := run ops (genesis c a) in
  (calls_of name m <= 1)%nat /\
  ((0 < calls_of name m)%nat -> hasDone m name) /\
  (forall ctx plan,
     fst (GetUpgradePlan ctx m) = Val (plan, true) ->
     calls_of (Name plan) m = 0%nat).
Proof.
  intros Hc Hops m.
  assert (consistent m) as Hm
    by (apply consistent_run; [done|by apply consistent_genesis]).
  assert (forall n, hasDone m n \/ calls_of n m = 0%nat) as Hcalls.
  { intros n. unfold calls_of.
    destruct (filter _ (invoked m)) as [|c0 l] eqn:E; [by right|left].
    assert (c0 ∈ filter (fun c => call_name c = n) (invoked m)) as Hin
      by (rewrite E; left).
    apply list_elem_of_filter in Hin as [<- Hin].
    by apply (consistent_done m Hm). }
  split; [|split].
  - apply NoDup_names_at_most_once, (consistent_once m Hm).
  - intros Hpos. destruct (Hcalls name); [done|lia].
  - intros ctx plan Hg.
    apply GetUpgradePlan_found in Hg as (bz & Hbz & Hu).
    destruct (consistent_pending m Hm bz Hbz) as (p & -> & Hnd).
    rewrite (consistent_codec m Hm) in Hu. injection Hu as <-.
    destruct (Hcalls (Name p)); done.
Qed.

End AtMostOnce.

(** *** A concrete history *)

Lemma sample_bump_framed : leaves_upgrade_store sample.bump.
Proof. by intros ctx plan ms. Qed.

(** Along the sample history the handler of "test" runs, once, at height
    11, and the second request for "test" is refused. *)
Example sample_history_runs :
  let m := run sample.history sample.genesis in
  calls_of "test" m = 1%nat /\
  others (cms m) = 1%nat /\
  doneHeight m "test" = Some 11 /\
  fst (GetUpgradePlan (sample.header 12 1002) m) = Val (zeroPlan, false) /\
  fst (ScheduleUpgrade (sample.header 12 1002) (sample.heightPlan 13) m)
    = Val (Some (AlreadyCompleted "test")).
Proof. vm_compute. repeat split. Qed.

Lemma handler_runs_at_most_once_witness :
  (calls_of "test" (run sample.history sample.genesis) <= 1)%nat.
Proof.
  apply (handler_runs_at_most_once sample.codec 0%nat sample.history "test").
  - exact sample_codec_roundtrip.
  - unfold sample.history.
    repeat (apply Forall_cons_2 || apply Forall_nil_2);
      try exact I; exact sample_bump_framed.
Defined.

(** * Further properties of the keeper *)

(** ** The store keys *)

(** The key of the pending plan is no DoneRecord key, two names never share
    a DoneRecord key, and the key of a name is one byte longer than the
    name. *)
Theorem store_keys_layout :
  (forall name, PlanKey <> DoneHeightKey name) /\
  (forall n1 n2, DoneHeightKey n1 = DoneHeightKey n2 -> n1 = n2) /\
  (forall name,
     List.length (DoneHeightKey name) = S (String.length name)).
Proof.
  split; [|split].
  - intros name. discriminate.
  - intros n1 n2. unfold DoneHeightKey. intros [= H].
    rewrite <- (string_of_list_byte_of_string n1),
            <- (string_of_list_byte_of_string n2).
    by rewrite H.
  - intros name. unfold DoneHeightKey. cbn. f_equal.
    unfold list_byte_of_string. rewrite length_map.
    induction name as [|a s IH]; cbn; [done|by rewrite IH].
Qed.

(** ** More on scheduling *)

Section ScheduleMore.

Context {A : Type}.
Implicit Types (m : Machine A) (ctx : sdk.Context) (plan : Plan).

Lemma passes_validations_iff ctx plan :
  passes_validations ctx plan <->
  ValidateBasic plan = None /\ checkTarget ctx plan = None.
Proof.
  unfold passes_validations.
  rewrite ValidateBasic_None, checkTarget_None. tauto.
Qed.

Lemma ScheduleUpgrade_nil_inv ctx plan m :
  fst (ScheduleUpgrade ctx plan m) = Val None ->
  passes_validations ctx plan /\ ~ hasDone m (Name plan) /\
  ScheduleUpgrade ctx plan m = (Val None, scheduled plan m).
Proof.
  rewrite ScheduleUpgrade_cases. unfold passes_validations.
  destruct (ValidateBasic plan) eqn:Ev; [discriminate|].
  destruct (checkTarget ctx plan) eqn:Ec; [discriminate|].
  destruct (bool_decide (hasDone m (Name plan))) eqn:Ed; [discriminate|].
  intros _. apply ValidateBasic_None in Ev. apply checkTarget_None in Ec.
  apply bool_decide_eq_false in Ed. split; [|done]. split; [done|tauto].
Qed.

(** A plan with an empty name is refused with [InvalidPlan], whatever its
    target and whatever the store holds, and nothing is written. *)
Theorem ScheduleUpgrade_empty_name ctx plan m :
  Name plan = EmptyString ->
  ScheduleUpgrade ctx plan m = (Val (Some InvalidPlan), m).
Proof.
  intros Hn. rewrite ScheduleUpgrade_cases. unfold ValidateBasic.
  by rewrite Hn.
Qed.


(** [ScheduleUpgrade] fails with "already been completed" exactly when the
    plan gets through the name and target checks and its name has a
    DoneRecord: the earlier checks take precedence. *)
Theorem ScheduleUpgrade_AlreadyCompleted_iff ctx plan m :
  fst (ScheduleUpgrade ctx plan m) = Val (Some (AlreadyCompleted (Name plan)))
  <-> passes_validations ctx plan /\ hasDone m (Name plan).
Proof.
  pose proof errors_distinct as (_ & _ & _ & Hai & Hap & Has).
  rewrite ScheduleUpgrade_cases, passes_validations_iff.
  destruct (ValidateBasic plan) as [e|] eqn:Ev; cbn.
  { apply ValidateBasic_Some in Ev as [_ ->]. split.
    - intros H. exfalso. apply (Hai (Name plan)). congruence.
    - intros [[? _] _]. discriminate. }
  destruct (checkTarget ctx plan) as [e|] eqn:Ec; cbn.
  { split; [|intros [[_ ?] _]; discriminate].
    intros H. exfalso.
    apply checkTarget_Some in Ec as [-> | ->];
      [apply (Hap (Name plan))|apply (Has (Name plan))]; congruence. }
  destruct (bool_decide (hasDone m (Name plan))) eqn:Ed; cbn.
  - apply bool_decide_eq_true in Ed. tauto.
  - apply bool_decide_eq_false in Ed. split; [discriminate|tauto].
Qed.

(** Every error that [ScheduleUpgrade] returns has the code
    [CodeUnknownRequest], the one the tests expect. *)
Theorem ScheduleUpgrade_error_code ctx plan m err :
  fst (ScheduleUpgrade ctx plan m) = Val (Some err) ->
  sdk.Code err = sdk.CodeUnknownRequest.
Proof.
  rewrite ScheduleUpgrade_cases.
  destruct (ValidateBasic plan) as [e|] eqn:Ev; cbn.
  { intros [= <-]. by apply ValidateBasic_Some in Ev as [_ ->]. }
  destruct (checkTarget ctx plan) as [e|] eqn:Ec; cbn.
  { intros [= <-]. by apply checkTarget_Some in Ec as [-> | ->]. }
  destruct (bool_decide _); cbn; [|discriminate]. by intros [= <-].
Qed.

(** After a successful [ScheduleUpgrade], [GetUpgradePlan] returns that very
    plan with [havePlan] true, given a codec with the round trip. *)
Theorem ScheduleUpgrade_then_GetUpgradePlan ctx ctx' plan m :
  codec_roundtrip (cdc (kp m)) ->
  fst (ScheduleUpgrade ctx plan m) = Val None ->
  GetUpgradePlan ctx' (snd (ScheduleUpgrade ctx plan m))
    = (Val (plan, true), snd (ScheduleUpgrade ctx plan m)).
Proof.
  intros Hc H. apply ScheduleUpgrade_nil_inv in H as (_ & _ & ->).
  rewrite GetUpgradePlan_cases. cbn.
  by rewrite lookup_insert_eq, Hc.
Qed.

(** A successful [ScheduleUpgrade] replaces the pending plan: scheduling
    [p2] after [p1] leaves the machine that scheduling [p2] alone leaves.
    With [p1 = p2]: scheduling the same plan twice is scheduling it once. *)
Theorem ScheduleUpgrade_overwrites ctx1 ctx2 p1 p2 m :
  fst (ScheduleUpgrade ctx1 p1 m) = Val None ->
  fst (ScheduleUpgrade ctx2 p2 m) = Val None ->
  ScheduleUpgrade ctx2 p2 (snd (ScheduleUpgrade ctx1 p1 m))
    = ScheduleUpgrade ctx2 p2 m.
Proof.
  intros H1 H2.
  apply ScheduleUpgrade_nil_inv in H1 as (_ & _ & ->).
  apply ScheduleUpgrade_nil_inv in H2 as (Hv & Hd & ->). cbn [snd].
  rewrite ScheduleUpgrade_success; [|done|].
  - unfold scheduled, with_store, with_haveCache. cbn.
    by rewrite insert_insert_eq.
  - unfold hasDone, scheduled in *. cbn.
    by rewrite lookup_insert_ne by discriminate.
Qed.

(** [ScheduleUpgrade] writes nothing but the pending plan: every other key
    of the store, so every DoneRecord, the other stores, the handler
    registry, the codec and the call log are as before, on success and on
    failure. *)
Theorem ScheduleUpgrade_frame ctx plan m :
  let m' := snd (ScheduleUpgrade ctx plan m) in
  (forall key, key <> PlanKey ->
     upgradeStore (cms m') !! key = upgradeStore (cms m) !! key) /\
  (forall name, hasDone m' name <-> hasDone m name) /\
  others (cms m') = others (cms m) /\
  upgradeHandlers (kp m') = upgradeHandlers (kp m) /\
  cdc (kp m') = cdc (kp m) /\
  invoked m' = invoked m.
Proof.
  cbv zeta. rewrite ScheduleUpgrade_cases.
  destruct (ValidateBasic plan); [done|].
  destruct (checkTarget ctx plan); [done|].
  destruct (bool_decide _); [done|]. cbn.
  split; [|split]; [| |done].
  - intros key Hk. by rewrite lookup_insert_ne.
  - intros name. unfold hasDone. cbn.
    by rewrite lookup_insert_ne by discriminate.
Qed.

End ScheduleMore.

(** ** Clearing, registering and marking done *)

Section KeeperMore.

Context {A : Type}.
Implicit Types (m : Machine A) (ctx : sdk.Context) (plan : Plan).

(** After [ClearUpgradePlan], on any machine, [GetUpgradePlan] reports not
    found and returns the zero plan; [ClearUpgradePlan] itself always
    returns. *)
Theorem ClearUpgradePlan_then_GetUpgradePlan ctx ctx' m :
  fst (ClearUpgradePlan ctx m) = Val tt /\
  GetUpgradePlan ctx' (snd (ClearUpgradePlan ctx m))
    = (Val (zeroPlan, false), snd (ClearUpgradePlan ctx m)).
Proof.
  split; [done|]. rewrite GetUpgradePlan_cases. cbn.
  by rewrite lookup_delete_eq.
Qed.

(** [ClearUpgradePlan] deletes the pending plan and nothing else: the other
    keys, so the DoneRecords, the other stores, the registry and the call
    log stay; clearing twice is clearing once, and clearing a store without
    a plan leaves the store as it is. *)
Theorem ClearUpgradePlan_frame ctx ctx' m :
  let m' := snd (ClearUpgradePlan ctx m) in
  (forall key, key <> PlanKey ->
     upgradeStore (cms m') !! key = upgradeStore (cms m) !! key) /\
  (forall name, hasDone m' name <-> hasDone m name) /\
  others (cms m') = others (cms m) /\
  upgradeHandlers (kp m') = upgradeHandlers (kp m) /\
  invoked m' = invoked m /\
  snd (ClearUpgradePlan ctx' m') = m' /\
  (upgradeStore (cms m) !! PlanKey = None ->
     upgradeStore (cms m') = upgradeStore (cms m)).
Proof.
  cbv zeta. cbn. repeat apply conj; try done.
  - intros key Hk. by rewrite lookup_delete_ne.
  - intros name. unfold hasDone. cbn.
    by rewrite lookup_delete_ne by discriminate.
  - unfold with_store, with_haveCache. cbn. by rewrite delete_delete_eq.
  - intros Hn. by rewrite delete_id.
Qed.

(** [setDone] always returns and stores 8 bytes under the key of the name;
    they read back as the block height, for every [int64] height.  The
    pending plan and the DoneRecords of the other names are untouched. *)
Theorem setDone_records_height ctx name m :
  let m' := snd (setDone ctx name m) in
  fst (setDone ctx name m) = Val tt /\
  (exists bz, upgradeStore (cms m') !! DoneHeightKey name = Some bz /\
              List.length bz = 8%nat) /\
  (int64_range (sdk.BlockHeight ctx) ->
     doneHeight m' name = Some (sdk.BlockHeight ctx)) /\
  (forall name', name' <> name -> doneHeight m' name' = doneHeight m name') /\
  upgradeStore (cms m') !! PlanKey = upgradeStore (cms m) !! PlanKey.
Proof.
  cbv zeta. unfold setDone, store_Set, modify. cbn [fst snd].
  split; [done|]. split; [|split; [|split]].
  - eexists. cbn. by rewrite lookup_insert_eq.
  - intros Hr. unfold doneHeight. cbn. rewrite lookup_insert_eq.
    by apply height_roundtrip.
  - intros name' Hne. unfold doneHeight. cbn.
    rewrite lookup_insert_ne; [done|].
    intros E. apply Hne. symmetry. unfold DoneHeightKey in E.
    injection E as E.
    rewrite <- (string_of_list_byte_of_string name),
            <- (string_of_list_byte_of_string name').
    by rewrite E.
  - cbn. by rewrite lookup_insert_ne by discriminate.
Qed.

(** [SetUpgradeHandler] overwrites: registering [h2] after [h1] under one
    name is registering [h2] alone.  The handlers of the other names, the
    stores and the call log are untouched. *)
Theorem SetUpgradeHandler_overwrites name (h1 h2 : Handler A) m :
  let m1 := snd (SetUpgradeHandler name h1 m) in
  SetUpgradeHandler name h2 m1 = SetUpgradeHandler name h2 m /\
  upgradeHandlers (kp m1) !! name = Some h1 /\
  (forall name', name' <> name ->
     upgradeHandlers (kp m1) !! name' = upgradeHandlers (kp m) !! name') /\
  cms m1 = cms m /\ invoked m1 = invoked m.
Proof.
  cbv zeta. unfold SetUpgradeHandler, modify, with_handler. cbn.
  repeat apply conj; try done.
  - by rewrite insert_insert_eq.
  - by rewrite lookup_insert_eq.
  - intros name' Hne. by rewrite lookup_insert_ne.
Qed.

(** ** More on the per-block evaluation *)

Lemma BeginBlocker_cases ctx m :
  BeginBlocker ctx m =
    match upgradeStore (cms m) !! PlanKey with
    | None => (Val tt, m)
    | Some bz =>
      match UnmarshalBinaryBare (cdc (kp m)) bz with
      | None => (Panic "UnmarshalBinaryBare failed", m)
      | Some plan =>
          if triggered (abci.Time (sdk.BlockHeader ctx)) (sdk.BlockHeight ctx)
               (Time plan) (Height plan)
          then fire ctx plan m else hold ctx plan m
      end
    end.
Proof.
  destruct (upgradeStore (cms m) !! PlanKey) as [bz|] eqn:Eb;
    [|by apply BeginBlocker_unscheduled].
  destruct (UnmarshalBinaryBare (cdc (kp m)) bz) as [plan|] eqn:Eu.
  - apply BeginBlocker_pending, GetUpgradePlan_found. eauto.
  - unfold BeginBlocker, bind at 1. by rewrite GetUpgradePlan_cases, Eb, Eu.
Qed.

(** Whenever [BeginBlocker] panics, the machine at the panic is the machine
    before the call: nothing is half applied.  The panic is one of three:
    the stored plan does not decode, the upgrade is due and has no handler,
    or a handler is there before the upgrade is due. *)
Theorem BeginBlocker_panic_leaves_machine ctx m msg :
  fst (BeginBlocker ctx m) = Panic msg ->
  snd (BeginBlocker ctx m) = m /\
  (msg = "UnmarshalBinaryBare failed"%string \/
   msg = "UPGRADE REQUIRED!"%string \/
   msg = "BINARY UPDATED BEFORE TRIGGER!"%string).
Proof.
  rewrite BeginBlocker_cases.
  destruct (upgradeStore (cms m) !! PlanKey) as [bz|]; [|discriminate].
  destruct (UnmarshalBinaryBare (cdc (kp m)) bz) as [plan|];
    [|intros [= <-]; auto].
  destruct (triggered _ _ _ _); unfold fire, hold;
    destruct (upgradeHandlers (kp m) !! Name plan); cbn;
    try discriminate; intros [= <-]; auto.
Qed.

(** [BeginBlocker] returns normally exactly when no plan is pending, or
    the pending plan decodes and is due with a handler registered for its
    name, or is not due with none registered. *)
Theorem BeginBlocker_returns_iff ctx m :
  fst (BeginBlocker ctx m) = Val tt <->
  upgradeStore (cms m) !! PlanKey = None \/
  exists plan,
    fst (GetUpgradePlan ctx m) = Val (plan, true) /\
    (trigger_condition ctx plan <->
     is_Some (upgradeHandlers (kp m) !! Name plan)).
Proof.
  rewrite BeginBlocker_cases.
  destruct (upgradeStore (cms m) !! PlanKey) as [bz|] eqn:Eb; [|tauto].
  destruct (UnmarshalBinaryBare (cdc (kp m)) bz) as [plan|] eqn:Eu.
  - assert (forall p, fst (GetUpgradePlan ctx m) = Val (p, true) <-> p = plan)
      as Hg.
    { intros p. rewrite GetUpgradePlan_found. split.
      - intros (bz' & Hb & Hu). congruence.
      - intros ->. eauto. }
    pose proof (triggered_iff ctx plan) as Ht.
    assert (is_Some (@None (Handler A)) -> False) as Hnone
      by (intros [? ?]; discriminate).
    destruct (triggered _ _ _ _); unfold fire, hold;
      destruct (upgradeHandlers (kp m) !! Name plan) as [h|] eqn:Eh;
      cbn [fst].
    + split; [|done]. intros _. right. exists plan.
      split; [by apply Hg|]. split; [eauto|]. intros _. by apply Ht.
    + split; [discriminate|].
      intros [? | (p & Hp & Hiff)]; [discriminate|].
      apply Hg in Hp as ->. rewrite Eh in Hiff.
      exfalso. apply Hnone, Hiff. by apply Ht.
    + split; [discriminate|].
      intros [? | (p & Hp & Hiff)]; [discriminate|].
      apply Hg in Hp as ->. rewrite Eh in Hiff.
      assert (false = true) by (apply Ht, Hiff; eauto). discriminate.
    + split; [|done]. intros _. right. exists plan.
      split; [by apply Hg|]. split.
      * intros Hc. apply Ht in Hc. discriminate.
      * intros Hs. rewrite Eh in Hs. by apply Hnone in Hs.
  - cbn [fst]. split; [discriminate|].
    intros [? | (p & Hp & _)]; [discriminate|].
    apply GetUpgradePlan_found in Hp as (bz' & Hb & Hu). congruence.
Qed.

(** [BeginBlocker] changes the machine only by applying an upgrade: either
    the machine is as before, or the pending plan was due, a handler was
    registered for its name, and the machine is the one after that handler,
    the clearing and the DoneRecord.  The registry and the codec are never
    changed. *)
Theorem BeginBlocker_changes_only_by_applying ctx m :
  let m' := snd (BeginBlocker ctx m) in
  upgradeHandlers (kp m') = upgradeHandlers (kp m) /\
  cdc (kp m') = cdc (kp m) /\
  (m' = m \/
   exists plan (handler : Handler A),
     fst (GetUpgradePlan ctx m) = Val (plan, true) /\
     trigger_condition ctx plan /\
     upgradeHandlers (kp m) !! Name plan = Some handler /\
     m' = applied ctx plan handler m).
Proof.
  cbv zeta. rewrite BeginBlocker_cases.
  destruct (upgradeStore (cms m) !! PlanKey) as [bz|] eqn:Eb; [|auto].
  destruct (UnmarshalBinaryBare (cdc (kp m)) bz) as [plan|] eqn:Eu; [|auto].
  pose proof (triggered_iff ctx plan) as Ht.
  destruct (triggered _ _ _ _); unfold fire, hold;
    destruct (upgradeHandlers (kp m) !! Name plan) as [h|] eqn:Eh;
    cbn [fst snd]; auto.
  split; [done|]. split; [done|]. right. exists plan, h.
  split; [apply GetUpgradePlan_found; eauto|]. split; [by apply Ht|done].
Qed.

(** A keeper fresh from [NewKeeper] has no handler: its [BeginBlocker]
    never changes the machine and never calls a handler; with a pending
    plan it panics with "UPGRADE REQUIRED!" exactly when the plan is due and
    returns normally otherwise. *)
Theorem NewKeeper_BeginBlocker (c : Codec) ctx plan m :
  kp m = NewKeeper c ->
  fst (GetUpgradePlan ctx m) = Val (plan, true) ->
  snd (BeginBlocker ctx m) = m /\
  (trigger_condition ctx plan ->
     fst (BeginBlocker ctx m) = Panic "UPGRADE REQUIRED!") /\
  (~ trigger_condition ctx plan -> fst (BeginBlocker ctx m) = Val tt).
Proof.
  intros Hk Hg. rewrite (BeginBlocker_pending ctx plan m Hg).
  pose proof (triggered_iff ctx plan) as Ht.
  unfold fire, hold. rewrite Hk. cbn. rewrite lookup_empty.
  destruct (triggered _ _ _ _); cbn; split; try done; split; try done.
  - intros Hn. destruct Hn. by apply Ht.
  - intros Hc. apply Ht in Hc. discriminate.
Qed.

End KeeperMore.

(** ** Scheduling and evaluation together *)

Section Scenarios.

Context {A : Type}.
Implicit Types (m : Machine A) (ctx : sdk.Context) (plan : Plan).

Local Arguments GetUpgradePlan : simpl never.
Local Arguments BeginBlocker : simpl never.
Local Arguments ScheduleUpgrade : simpl never.

(** The condition of line 156 is monotone in the block: once a plan is
    due, it is due at every block that is not earlier in time nor lower in
    height. *)
Theorem triggered_monotone (bt bt' : time.Time) (bh bh' : Z)
    (ut : time.Time) (uh : Z) :
  triggered bt bh ut uh = true ->
  bt <= bt' -> bh <= bh' ->
  triggered bt' bh' ut uh = true.
Proof.
  unfold triggered, time.IsZero, time.Before, time.Time in *.
  rewrite !orb_true_iff, !andb_true_iff, !negb_true_iff.
  rewrite !Z.ltb_ge, !Z.ltb_lt, !Z.leb_le. lia.
Qed.

(** A plan accepted at a block of non-negative height becomes due exactly
    when its target is reached: its time if it has one, else its height. *)
Theorem accepted_plan_due_iff ctx ctx' plan m :
  fst (ScheduleUpgrade ctx plan m) = Val None ->
  0 <= sdk.BlockHeight ctx ->
  triggered (abci.Time (sdk.BlockHeader ctx')) (sdk.BlockHeight ctx')
    (Time plan) (Height plan) = true <->
  if time.IsZero (Time plan)
  then Height plan <= sdk.BlockHeight ctx'
  else Time plan <= abci.Time (sdk.BlockHeader ctx').
Proof.
  intros H Hh. apply ScheduleUpgrade_nil_inv in H as ((_ & Hv) & _).
  unfold triggered, time.IsZero, time.Before, time.Time in *.
  rewrite orb_true_iff, !andb_true_iff, !negb_true_iff.
  rewrite Z.eqb_neq, Z.ltb_ge, Z.ltb_lt, Z.leb_le.
  destruct (Z.eqb_spec (Time plan) 0); lia.
Qed.

(** A plan is never due in the block that accepted it.  Evaluating that
    block again leaves the plan pending when no handler is registered for
    its name, and panics, binary ahead of chain, when one is. *)
Theorem accepted_plan_waits ctx plan m :
  codec_roundtrip (cdc (kp m)) ->
  fst (ScheduleUpgrade ctx plan m) = Val None ->
  let m1 := snd (ScheduleUpgrade ctx plan m) in
  ~ trigger_condition ctx plan /\
  (upgradeHandlers (kp m) !! Name plan = None ->
     BeginBlocker ctx m1 = (Val tt, m1)) /\
  (is_Some (upgradeHandlers (kp m) !! Name plan) ->
     BeginBlocker ctx m1 = (Panic "BINARY UPDATED BEFORE TRIGGER!", m1)).
Proof.
  intros Hc H. cbv zeta.
  pose proof H as Hi. apply ScheduleUpgrade_nil_inv in Hi as (Hv & _ & E).
  assert (~ trigger_condition ctx plan) as Hnt.
  { destruct Hv as [_ Hv]. unfold trigger_condition, time_set. lia. }
  split; [done|].
  assert (fst (GetUpgradePlan ctx (snd (ScheduleUpgrade ctx plan m)))
          = Val (plan, true)) as Hg.
  { rewrite E. cbn [snd]. rewrite GetUpgradePlan_cases. cbn.
    by rewrite lookup_insert_eq, Hc. }
  rewrite (BeginBlocker_hold _ _ _ Hg Hnt). rewrite E. cbn [snd].
  unfold hold. cbn. split.
  - by intros ->.
  - by intros [h ->].
Qed.

(** The scenario of the tests: a plan is accepted while no handler is
    registered for its name.  At a block where it is due, [BeginBlocker]
    panics with "UPGRADE REQUIRED!" and changes nothing; once a handler is
    registered, the same evaluation returns normally, the call log has
    grown by that one call, and [GetUpgradePlan] reports not found. *)
Theorem schedule_halt_register_apply ctx ctx' ctx'' plan (h : Handler A) m :
  codec_roundtrip (cdc (kp m)) ->
  fst (ScheduleUpgrade ctx plan m) = Val None ->
  upgradeHandlers (kp m) !! Name plan = None ->
  trigger_condition ctx' plan ->
  let m1 := snd (ScheduleUpgrade ctx plan m) in
  let m2 := snd (SetUpgradeHandler (Name plan) h m1) in
  let m3 := snd (BeginBlocker ctx' m2) in
  BeginBlocker ctx' m1 = (Panic "UPGRADE REQUIRED!", m1) /\
  fst (BeginBlocker ctx' m2) = Val tt /\
  invoked m3 = invoked m ++
    [{| call_name := Name plan; call_ctx := ctx'; call_plan := plan |}] /\
  GetUpgradePlan ctx'' m3 = (Val (zeroPlan, false), m3) /\
  hasDone m3 (Name plan).
Proof.
  intros Hc H Hn Ht. cbv zeta.
  apply ScheduleUpgrade_nil_inv in H as (_ & _ & ->). cbn [snd].
  assert (forall m', upgradeStore (cms m') = upgradeStore (cms (scheduled plan m)) ->
            cdc (kp m') = cdc (kp m) ->
            fst (GetUpgradePlan ctx' m') = Val (plan, true)) as Hg.
  { intros m' Hs Hk. rewrite GetUpgradePlan_cases, Hs, Hk. cbn.
    by rewrite lookup_insert_eq, Hc. }
  split; [|split; [|split; [|split]]].
  - rewrite (BeginBlocker_fire ctx' plan (scheduled plan m)); [|by apply Hg|done].
    unfold fire. cbn. by rewrite Hn.
  - rewrite (BeginBlocker_fire ctx' plan); [|by apply Hg|done].
    unfold fire. cbn. by rewrite lookup_insert_eq.
  - rewrite (BeginBlocker_fire ctx' plan); [|by apply Hg|done].
    unfold fire. cbn. by rewrite lookup_insert_eq.
  - rewrite (BeginBlocker_fire ctx' plan); [|by apply Hg|done].
    unfold fire. cbn. rewrite lookup_insert_eq. cbn [snd].
    rewrite GetUpgradePlan_cases. cbn.
    rewrite lookup_insert_ne by discriminate. by rewrite lookup_delete_eq.
  - rewrite (BeginBlocker_fire ctx' plan); [|by apply Hg|done].
    unfold fire. cbn. rewrite lookup_insert_eq. cbn [snd].
    unfold hasDone. cbn. rewrite lookup_insert_eq. eauto.
Qed.


End Scenarios.

(** ** Histories *)

Section HistoryMore.

Context {A : Type}.
Implicit Types (m : Machine A) (ctx : sdk.Context) (plan : Plan).

Local Arguments GetUpgradePlan : simpl never.
Local Arguments BeginBlocker : simpl never.
Local Arguments ScheduleUpgrade : simpl never.
Local Arguments DoneHeightKey : simpl never.
Local Arguments PlanKey : simpl never.

(** What one operation does to the upgrade store and to the call log, on a
    consistent machine: nothing, or one of the three writes of the keeper. *)
Lemma step_effect m (op : @Op A) :
  consistent m -> registers_framed op ->
  let m' := step m op in
  cdc (kp m') = cdc (kp m) /\
  ((upgradeStore (cms m') = upgradeStore (cms m) /\
    invoked m' = invoked m) \/
   (exists ctx plan,
      passes_validations ctx plan /\
      upgradeStore (cms m') =
        <[PlanKey := MarshalBinaryBare (cdc (kp m)) plan]>
          (upgradeStore (cms m)) /\
      invoked m' = invoked m) \/
   (upgradeStore (cms m') = delete PlanKey (upgradeStore (cms m)) /\
    invoked m' = invoked m) \/
   (exists ctx plan,
      ~ hasDone m (Name plan) /\
      upgradeStore (cms m') =
        <[DoneHeightKey (Name plan) :=
            binary.PutUint64 (uint64 (sdk.BlockHeight ctx))]>
          (delete PlanKey (upgradeStore (cms m))) /\
      invoked m' = invoked m ++
        [{| call_name := Name plan; call_ctx := ctx; call_plan := plan |}])).
Proof.
  intros Hm Hop. cbv zeta.
  destruct op as [ctx plan|ctx|ctx|name handler|ctx|]; unfold step.
  - rewrite ScheduleUpgrade_cases.
    destruct (ValidateBasic plan) eqn:Ev; [auto|].
    destruct (checkTarget ctx plan) eqn:Ec; [auto|].
    destruct (bool_decide _); [auto|].
    split; [done|]. right. left. exists ctx, plan.
    split; [by apply passes_validations_iff|done].
  - split; [done|]. right. right. left. done.
  - rewrite GetUpgradePlan_read_only. auto.
  - split; [done|]. left. done.
  - destruct (upgradeStore (cms m) !! PlanKey) as [bz|] eqn:Eb;
      [|rewrite BeginBlocker_unscheduled by done; auto].
    destruct (consistent_pending m Hm bz Eb) as (plan & -> & Hnd).
    assert (fst (GetUpgradePlan ctx m) = Val (plan, true)) as Hg.
    { apply GetUpgradePlan_found. eexists. split; [done|].
      by apply consistent_codec. }
    rewrite (BeginBlocker_pending ctx plan m Hg).
    destruct (triggered _ _ _ _); [unfold fire | unfold hold];
      destruct (upgradeHandlers (kp m) !! Name plan) as [h|] eqn:Eh;
      cbn [snd]; auto.
    split; [done|]. right. right. right. exists ctx, plan.
    split; [done|]. cbn.
    by rewrite (consistent_handlers m Hm (Name plan) h Eh).
  - split; [done|]. left. done.
Qed.

Lemma pending_accepted_step m (op : @Op A) :
  consistent m -> registers_framed op ->
  pending_accepted m -> pending_accepted (step m op).
Proof.
  intros Hm Hop Hp bz.
  destruct (step_effect m op Hm Hop) as
    (-> & [[-> _] | [(ctx & plan & Hv & -> & _) | [[-> _] |
           (ctx & plan & _ & -> & _)]]]).
  - apply Hp.
  - rewrite lookup_insert_eq. intros [= <-]. eauto.
  - by rewrite lookup_delete_eq.
  - rewrite lookup_insert_ne by apply DoneHeightKey_not_PlanKey.
    by rewrite lookup_delete_eq.
Qed.

Lemma done_matches_calls_step m (op : @Op A) :
  consistent m -> registers_framed op ->
  done_matches_calls m -> done_matches_calls (step m op).
Proof.
  intros Hm Hop Hd name bz.
  destruct (step_effect m op Hm Hop) as
    (_ & [[-> ->] | [(ctx & plan & _ & -> & ->) | [[-> ->] |
          (ctx & plan & _ & -> & ->)]]]).
  - apply Hd.
  - rewrite lookup_insert_ne by apply PlanKey_not_DoneHeightKey. apply Hd.
  - rewrite lookup_delete_ne by apply PlanKey_not_DoneHeightKey. apply Hd.
  - destruct (decide (Name plan = name)) as [<-|Hne].
    + rewrite lookup_insert_eq. intros [= <-].
      eexists. split; [apply elem_of_app; right; by left|done].
    + rewrite lookup_insert_ne
        by (intros E; by apply DoneHeightKey_inj in E).
      rewrite lookup_delete_ne by apply PlanKey_not_DoneHeightKey.
      intros Hl. destruct (Hd name bz Hl) as (c & Hin & Hc).
      exists c. split; [apply elem_of_app; by left|done].
Qed.

Lemma done_lookup_step m (op : @Op A) name :
  consistent m -> registers_framed op -> hasDone m name ->
  upgradeStore (cms (step m op)) !! DoneHeightKey name
    = upgradeStore (cms m) !! DoneHeightKey name.
Proof.
  intros Hm Hop Hd.
  destruct (step_effect m op Hm Hop) as
    (_ & [[-> _] | [(ctx & plan & _ & -> & _) | [[-> _] |
          (ctx & plan & Hnd & -> & _)]]]).
  - done.
  - by rewrite lookup_insert_ne by apply PlanKey_not_DoneHeightKey.
  - by rewrite lookup_delete_ne by apply PlanKey_not_DoneHeightKey.
  - rewrite lookup_insert_ne by (intros E; apply DoneHeightKey_inj in E;
                                 by subst).
    by rewrite lookup_delete_ne by apply PlanKey_not_DoneHeightKey.
Qed.

Lemma history_invariants (ops : list (@Op A)) m :
  Forall registers_framed ops ->
  consistent m -> pending_accepted m -> done_matches_calls m ->
  consistent (run ops m) /\ pending_accepted (run ops m) /\
  done_matches_calls (run ops m).
Proof.
  intros Hops. revert m.
  induction Hops as [|op ops Hop _ IH]; intros m Hm Hp Hd; cbn; [done|].
  apply IH.
  - by apply consistent_step.
  - by apply pending_accepted_step.
  - by apply done_matches_calls_step.
Qed.

Lemma genesis_invariants (c : Codec) (a : A) (ops : list (@Op A)) :
  codec_roundtrip c -> Forall registers_framed ops ->
  let m := run ops (genesis c a) in
  consistent m /\ pending_accepted m /\ done_matches_calls m.
Proof.
  intros Hc Hops. apply history_invariants; [done| | |].
  - by apply consistent_genesis.
  - intros bz. cbn. by rewrite lookup_empty.
  - intros name bz. cbn. by rewrite lookup_empty.
Qed.

(** Along every history from genesis the stored plan always decodes:
    [GetUpgradePlan] never panics, and what it reports as pending is a plan
    that [ScheduleUpgrade] accepted at some block, so its name is not empty,
    it does not set both a time and a height, and its name has no
    DoneRecord. *)
Theorem pending_plan_was_accepted (c : Codec) (a : A) (ops : list (@Op A))
    ctx :
  codec_roundtrip c -> Forall registers_framed ops ->
  let m := run ops (genesis c a) in
  (exists r, fst (GetUpgradePlan ctx m) = Val r) /\
  (forall plan,
     fst (GetUpgradePlan ctx m) = Val (plan, true) ->
     (exists ctx0, passes_validations ctx0 plan) /\
     Name plan <> EmptyString /\
     (Time plan = 0 \/ Height plan = 0) /\
     ~ hasDone m (Name plan)).
Proof.
  intros Hc Hops m.
  destruct (genesis_invariants c a ops Hc Hops) as (Hm & Hp & _).
  fold m in Hm, Hp. split.
  - rewrite GetUpgradePlan_cases.
    destruct (upgradeStore (cms m) !! PlanKey) as [bz|] eqn:Eb; [|eauto].
    destruct (Hp bz Eb) as (ctx0 & plan & -> & _).
    rewrite (consistent_codec m Hm). eauto.
  - intros plan Hg. apply GetUpgradePlan_found in Hg as (bz & Hb & Hu).
    destruct (Hp bz Hb) as (ctx0 & p & -> & Hv).
    destruct (consistent_pending m Hm _ Hb) as (p' & Hp' & Hnd).
    rewrite (consistent_codec m Hm) in Hu. injection Hu as <-.
    assert (p' = p) as ->.
    { pose proof (consistent_codec m Hm p') as E. rewrite <- Hp' in E.
      rewrite (consistent_codec m Hm) in E. congruence. }
    split; [eauto|]. destruct Hv as [Hn Hv].
    split; [done|]. split; [lia|done].
Qed.

(** Along every history from genesis [BeginBlocker] never fails on the
    stored bytes: it returns, or it panics with one of its own two
    messages. *)
Theorem BeginBlocker_in_history (c : Codec) (a : A) (ops : list (@Op A))
    ctx :
  codec_roundtrip c -> Forall registers_framed ops ->
  let m := run ops (genesis c a) in
  fst (BeginBlocker ctx m) = Val tt \/
  fst (BeginBlocker ctx m) = Panic "UPGRADE REQUIRED!" \/
  fst (BeginBlocker ctx m) = Panic "BINARY UPDATED BEFORE TRIGGER!".
Proof.
  intros Hc Hops m.
  destruct (genesis_invariants c a ops Hc Hops) as (Hm & Hp & _).
  fold m in Hm, Hp. rewrite BeginBlocker_cases.
  destruct (upgradeStore (cms m) !! PlanKey) as [bz|] eqn:Eb; [|auto].
  destruct (Hp bz Eb) as (ctx0 & plan & -> & _).
  rewrite (consistent_codec m Hm).
  destruct (triggered _ _ _ _); unfold fire, hold;
    destruct (upgradeHandlers (kp m) !! Name plan); cbn; auto.
Qed.

(** Along every history from genesis the DoneRecords are exactly the names
    whose handler has run: a name has a DoneRecord if and only if its
    handler ran, once; the record then holds the height of the block in
    which it ran. *)
Theorem done_records_match_calls (c : Codec) (a : A) (ops : list (@Op A))
    name :
  codec_roundtrip c -> Forall registers_framed ops ->
  let m := run ops (genesis c a) in
  (hasDone m name <-> calls_of name m = 1%nat) /\
  (hasDone m name ->
     exists call, call ∈ invoked m /\ call_name call = name /\
       Name (call_plan call) = name /\
       (int64_range (sdk.BlockHeight (call_ctx call)) ->
          doneHeight m name = Some (sdk.BlockHeight (call_ctx call)))).
Proof.
  intros Hc Hops m.
  destruct (genesis_invariants c a ops Hc Hops) as (Hm & _ & Hd).
  fold m in Hm, Hd.
  assert (hasDone m name ->
          exists call bz, upgradeStore (cms m) !! DoneHeightKey name = Some bz /\
            call ∈ invoked m /\ call_name call = name /\
            Name (call_plan call) = name /\
            bz = binary.PutUint64 (uint64 (sdk.BlockHeight (call_ctx call))))
    as Hex.
  { intros [bz Hb]. destruct (Hd name bz Hb) as (call & ?). eauto. }
  split; [split|].
  - intros Hh. destruct (Hex Hh) as (call & bz & _ & Hin & Hn & _).
    pose proof (NoDup_names_at_most_once name (invoked m)
                  (consistent_once m Hm)) as Hle.
    unfold calls_of in *.
    assert (call ∈ filter (fun c0 => call_name c0 = name) (invoked m)) as Hf
      by (apply list_elem_of_filter; done).
    destruct (filter _ (invoked m)); [by apply elem_of_nil in Hf|].
    cbn in *. lia.
  - unfold calls_of. intros Hone.
    destruct (filter _ (invoked m)) as [|c0 l] eqn:E; [discriminate|].
    assert (c0 ∈ filter (fun c1 => call_name c1 = name) (invoked m)) as Hin
      by (rewrite E; left).
    apply list_elem_of_filter in Hin as [<- Hin].
    by apply (consistent_done m Hm).
  - intros Hh. destruct (Hex Hh) as (call & bz & Hb & Hin & Hn & Hp & ->).
    exists call. repeat (split; [done|]).
    intros Hr. unfold doneHeight. rewrite Hb. by apply height_roundtrip.
Qed.

(** A DoneRecord is permanent: once a name has one, no further operation
    of any history deletes it or changes the height it holds. *)
Theorem done_record_is_permanent (c : Codec) (a : A)
    (ops1 ops2 : list (@Op A)) name :
  codec_roundtrip c ->
  Forall registers_framed ops1 -> Forall registers_framed ops2 ->
  let m1 := run ops1 (genesis c a) in
  hasDone m1 name ->
  upgradeStore (cms (run ops2 m1)) !! DoneHeightKey name
    = upgradeStore (cms m1) !! DoneHeightKey name.
Proof.
  intros Hc Hops1 Hops2 m1.
  assert (consistent m1) as Hm
    by (apply consistent_run; [done|by apply consistent_genesis]).
  clearbody m1. revert m1 Hm.
  induction Hops2 as [|op ops Hop _ IH]; intros m1 Hm Hd; [done|].
  change (run (op :: ops) m1) with (run ops (step m1 op)).
  rewrite IH.
  - by apply done_lookup_step.
  - by apply consistent_step.
  - unfold hasDone. by rewrite done_lookup_step.
Qed.

End HistoryMore.

(** ** Concrete runs *)

Lemma sample_history_framed : Forall registers_framed sample.history.
Proof.
  unfold sample.history.
  repeat (apply Forall_cons_2 || apply Forall_nil_2);
    try exact I; exact sample_bump_framed.
Qed.

Lemma sample_applying_framed : Forall registers_framed sample.applying.
Proof. apply Forall_take, sample_history_framed. Qed.

Lemma sample_afterwards_framed : Forall registers_framed sample.afterwards.
Proof. apply Forall_drop, sample_history_framed. Qed.

Lemma ScheduleUpgrade_empty_name_witness :
  ScheduleUpgrade (sample.header 10 1000) zeroPlan sample.genesis
    = (Val (Some InvalidPlan), sample.genesis).
Proof.
  apply (ScheduleUpgrade_empty_name (sample.header 10 1000) zeroPlan
           sample.genesis).
  reflexivity.
Defined.

Lemma ScheduleUpgrade_error_code_witness :
  sdk.Code ScheduleInPast = sdk.CodeUnknownRequest.
Proof.
  apply (ScheduleUpgrade_error_code (sample.header 10 1000)
           (sample.heightPlan 10) sample.genesis ScheduleInPast).
  reflexivity.
Defined.

Lemma ScheduleUpgrade_then_GetUpgradePlan_witness :
  let m1 := snd (ScheduleUpgrade (sample.header 10 1000)
                   (sample.heightPlan 11) sample.genesis) in
  GetUpgradePlan (sample.header 11 1001) m1
    = (Val (sample.heightPlan 11, true), m1).
Proof.
  cbv zeta.
  apply (ScheduleUpgrade_then_GetUpgradePlan (sample.header 10 1000)
           (sample.header 11 1001) (sample.heightPlan 11) sample.genesis).
  - exact sample_codec_roundtrip.
  - vm_compute. reflexivity.
Defined.

Lemma ScheduleUpgrade_overwrites_witness :
  ScheduleUpgrade (sample.header 10 1000) (sample.timePlan 2000)
    (snd (ScheduleUpgrade (sample.header 10 1000) (sample.heightPlan 11)
            sample.genesis))
  = ScheduleUpgrade (sample.header 10 1000) (sample.timePlan 2000)
      sample.genesis.
Proof.
  apply (ScheduleUpgrade_overwrites (sample.header 10 1000)
           (sample.header 10 1000) (sample.heightPlan 11)
           (sample.timePlan 2000) sample.genesis).
  - vm_compute. reflexivity.
  - vm_compute. reflexivity.
Defined.

Lemma BeginBlocker_panic_leaves_machine_witness :
  snd (BeginBlocker (sample.header 11 1001) sample.pending) = sample.pending.
Proof.
  destruct (BeginBlocker_panic_leaves_machine (sample.header 11 1001)
              sample.pending "UPGRADE REQUIRED!") as [Hs _].
  - vm_compute. reflexivity.
  - exact Hs.
Defined.

Lemma NewKeeper_BeginBlocker_witness :
  fst (BeginBlocker (sample.header 11 1001) sample.pending)
    = Panic "UPGRADE REQUIRED!" /\
  fst (BeginBlocker (sample.header 10 1000) sample.pending) = Val tt.
Proof.
  split.
  - destruct (NewKeeper_BeginBlocker sample.codec (sample.header 11 1001)
                (sample.heightPlan 11) sample.pending) as (_ & Hd & _).
    + reflexivity.
    + vm_compute. reflexivity.
    + apply Hd. right. cbn. lia.
  - destruct (NewKeeper_BeginBlocker sample.codec (sample.header 10 1000)
                (sample.heightPlan 11) sample.pending) as (_ & _ & Hw).
    + reflexivity.
    + vm_compute. reflexivity.
    + apply Hw. unfold trigger_condition, time_set. cbn. lia.
Defined.

Lemma triggered_monotone_witness : triggered 2000 12 0 11 = true.
Proof.
  apply (triggered_monotone 1000 2000 11 12 0 11).
  - reflexivity.
  - lia.
  - lia.
Defined.

Lemma accepted_plan_due_iff_witness :
  triggered 1001 11 (Time (sample.heightPlan 11))
    (Height (sample.heightPlan 11)) = true.
Proof.
  apply (accepted_plan_due_iff (sample.header 10 1000)
           (sample.header 11 1001) (sample.heightPlan 11) sample.genesis).
  - vm_compute. reflexivity.
  - cbn. lia.
  - cbn. lia.
Defined.

Lemma accepted_plan_waits_witness :
  let m1 := snd (ScheduleUpgrade (sample.header 10 1000)
                   (sample.heightPlan 11) sample.genesis) in
  BeginBlocker (sample.header 10 1000) m1 = (Val tt, m1).
Proof.
  cbv zeta.
  destruct (accepted_plan_waits (sample.header 10 1000)
              (sample.heightPlan 11) sample.genesis) as (_ & Hn & _).
  - exact sample_codec_roundtrip.
  - vm_compute. reflexivity.
  - apply Hn. reflexivity.
Defined.

Lemma schedule_halt_register_apply_witness :
  let ctx := sample.header 10 1000 in
  let ctx' := sample.header 11 1001 in
  let m1 := snd (ScheduleUpgrade ctx (sample.heightPlan 11) sample.genesis) in
  let m2 := snd (SetUpgradeHandler "test" sample.bump m1) in
  BeginBlocker ctx' m1 = (Panic "UPGRADE REQUIRED!", m1) /\
  fst (BeginBlocker ctx' m2) = Val tt /\
  hasDone (snd (BeginBlocker ctx' m2)) "test".
Proof.
  cbv zeta.
  destruct (schedule_halt_register_apply (sample.header 10 1000)
              (sample.header 11 1001) (sample.header 11 1001)
              (sample.heightPlan 11) sample.bump sample.genesis)
    as (Hp & Hr & _ & _ & Hd).
  - exact sample_codec_roundtrip.
  - vm_compute. reflexivity.
  - reflexivity.
  - right. cbn. lia.
  - split; [exact Hp|]. split; [exact Hr|exact Hd].
Defined.


Lemma pending_plan_was_accepted_witness :
  exists r,
    fst (GetUpgradePlan (sample.header 12 1002)
           (run sample.history sample.genesis)) = Val r.
Proof.
  destruct (pending_plan_was_accepted sample.codec 0%nat sample.history
              (sample.header 12 1002)) as [Hr _].
  - exact sample_codec_roundtrip.
  - exact sample_history_framed.
  - exact Hr.
Defined.

Lemma BeginBlocker_in_history_witness :
  let m := run sample.history sample.genesis in
  fst (BeginBlocker (sample.header 12 1002) m) = Val tt \/
  fst (BeginBlocker (sample.header 12 1002) m) = Panic "UPGRADE REQUIRED!" \/
  fst (BeginBlocker (sample.header 12 1002) m)
    = Panic "BINARY UPDATED BEFORE TRIGGER!".
Proof.
  cbv zeta.
  apply (BeginBlocker_in_history sample.codec 0%nat sample.history
           (sample.header 12 1002)).
  - exact sample_codec_roundtrip.
  - exact sample_history_framed.
Defined.

Lemma done_records_match_calls_witness :
  let m := run sample.history sample.genesis in
  hasDone m "test" <-> calls_of "test" m = 1%nat.
Proof.
  cbv zeta.
  apply (done_records_match_calls sample.codec 0%nat sample.history "test").
  - exact sample_codec_roundtrip.
  - exact sample_history_framed.
Defined.

Lemma done_record_is_permanent_witness :
  let m1 := run sample.applying sample.genesis in
  upgradeStore (cms (run sample.afterwards m1)) !! DoneHeightKey "test"
    = upgradeStore (cms m1) !! DoneHeightKey "test".
Proof.
  cbv zeta.
  apply (done_record_is_permanent sample.codec 0%nat sample.applying
           sample.afterwards "test").
  - exact sample_codec_roundtrip.
  - exact sample_applying_framed.
  - exact sample_afterwards_framed.
  - eexists. vm_compute. reflexivity.
Defined.
